(** * LifeLink: the order lifecycle and the list views of [app.py]

    A shallow embedding of the Flask handlers of [app.py] that create,
    claim and advance transport requests, and of the two sorted list views.
    The SQLite tables are lists of rows in insertion order; every handler is
    a function from the store (and the request's arguments) to the new store
    and the HTTP response. *)

From Stdlib Require Import ZArith List String Ascii Bool Lia Permutation Sorted.
From Stdlib Require DecimalString.
Import ListNotations.

Local Open Scope string_scope.
Local Open Scope list_scope.
Local Open Scope Z_scope.

(** ** Python values as the handlers use them *)

Module Py.

(** [bool(x)] for an [Optional[int]]: [None] and [0] are falsy. *)
Definition truthy_int (x : option Z) : bool :=
  match x with
  | Some n => negb (n =? 0)
  | None => false
  end.

(** [bool(x)] for an [Optional[str]]: [None] and the empty string are falsy. *)
Definition truthy_str (x : option string) : bool :=
  match x with
  | Some s => negb (s =? "")%string
  | None => false
  end.

(** [d.get(key, default)] on a form whose field is [x]. *)
Definition get (x : option string) (default : string) : string :=
  match x with
  | Some s => s
  | None => default
  end.

(** [str.isspace] on one character, for the ASCII range: tab to carriage
    return, the four separators 28..31 and the space.  Strings are byte
    strings here, so the whitespace of Unicode beyond ASCII is not covered. *)
Definition isspace (c : ascii) : bool :=
  let n := N_of_ascii c in
  ((9 <=? n) && (n <=? 13) || (28 <=? n) && (n <=? 32))%N.

Fixpoint lstrip (s : string) : string :=
  match s with
  | EmptyString => EmptyString
  | String c s' => if isspace c then lstrip s' else s
  end.

Fixpoint rstrip (s : string) : string :=
  match s with
  | EmptyString => EmptyString
  | String c s' =>
      let t := rstrip s' in
      if isspace c && (t =? "")%string then EmptyString else String c t
  end.

(** [s.strip()] *)
Definition strip (s : string) : string := lstrip (rstrip s).

Definition lower_char (c : ascii) : ascii :=
  let n := N_of_ascii c in
  if ((65 <=? n) && (n <=? 90))%N then ascii_of_N (n + 32) else c.

(** [s.lower()], and SQLite's [lower()], on ASCII letters. *)
Fixpoint lower (s : string) : string :=
  match s with
  | EmptyString => EmptyString
  | String c s' => String (lower_char c) (lower s')
  end.

End Py.

(** ** The tables *)

(** A timestamp is the text SQLite's CURRENT_TIMESTAMP produces,
    "YYYY-MM-DD HH:MM:SS"; ORDER BY compares it as text. *)
Definition timestamp := string.

Record hospital := mkHospital {
  h_id : Z;
  h_name : string;
  h_city : string;
  h_state : string;
  h_email : string
}.

(** The columns of organ_listings the handlers below read or write; the
    age and weight_kg columns are only filled by new_listing and shown by
    the templates. *)
Record listing := mkListing {
  l_id : Z;
  l_hospital_id : Z;
  l_hospital_name : string;
  l_organ_type : string;
  l_blood_type : string;
  l_priority_status : string;
  l_availability_status : string;
  l_city : string;
  l_state : string;
  l_created_at : timestamp
}.

Record transport_request := mkRequest {
  tr_id : Z;
  tr_listing_id : option Z;
  tr_hospital : string;
  tr_organ_type : string;
  tr_origin : string;
  tr_destination : string;
  tr_contact_phone : string;
  tr_notes : string;
  tr_priority_status : string;
  tr_status : string;
  tr_driver_id : option Z;
  tr_created_at : timestamp;
  tr_updated_at : timestamp
}.

Record store := mkStore {
  tbl_hospitals : list hospital;
  tbl_organ_listings : list listing;
  tbl_transport_requests : list transport_request
}.

Definition set_listings (st : store) (ls : list listing) : store :=
  mkStore (tbl_hospitals st) ls (tbl_transport_requests st).

Definition set_requests (st : store) (rs : list transport_request) : store :=
  mkStore (tbl_hospitals st) (tbl_organ_listings st) rs.

(** [cur.lastrowid] of an INSERT that names no id: SQLite gives the row one
    more than the largest id in use, and 1 in an empty table. *)
Definition next_rowid (ids : list Z) : Z :=
  match ids with
  | [] => 1
  | i :: rest => 1 + fold_right Z.max i rest
  end.

(** [UPDATE t SET ... WHERE p]: every row that satisfies [p] is rewritten. *)
Definition update_where {A : Type} (p : A -> bool) (f : A -> A) (rows : list A)
  : list A :=
  map (fun r => if p r then f r else r) rows.

(** [query("SELECT * FROM transport_requests WHERE id = ?", (order_id,), one=True)] *)
Definition select_order (st : store) (order_id : Z) : option transport_request :=
  find (fun r => tr_id r =? order_id) (tbl_transport_requests st).

(** [query("SELECT * FROM organ_listings WHERE id = ?", (listing_id,), one=True)] *)
Definition select_listing (st : store) (listing_id : Z) : option listing :=
  find (fun l => l_id l =? listing_id) (tbl_organ_listings st).

(** SQL [column = ?] on a nullable integer column: NULL equals nothing. *)
Definition sql_eq_int (col : option Z) (v : Z) : bool :=
  match col with
  | Some c => c =? v
  | None => false
  end.

(** SQL [column IN (...)] on a text column. *)
Definition sql_in (col : string) (vs : list string) : bool :=
  existsb (String.eqb col) vs.

(** ** HTTP *)

Inductive http_method := GET | POST.

Inductive response :=
| Body (text : string) (code : Z)          (* return "text", code *)
| Abort (code : Z) (description : string)  (* abort(code, description) *)
| Render (template : string) (code : Z)    (* render_template(...)[, code] *)
| Redirect (endpoint : string) (arg : option Z). (* redirect(url_for(endpoint, ...)) *)

Definition http_code (r : response) : Z :=
  match r with
  | Body _ c => c
  | Abort c _ => c
  | Render _ c => c
  | Redirect _ _ => 302
  end.

(** ** Driver side: claiming and advancing an order *)

Definition is_active (r : transport_request) : bool :=
  sql_in (tr_status r) ["Assigned"; "En-route"].

(** The rows the COUNT of [driver_has_active_order] counts. *)
Definition active_orders_of (driver_id : Z) (rows : list transport_request)
  : list transport_request :=
  filter (fun r => sql_eq_int (tr_driver_id r) driver_id && is_active r) rows.

Definition driver_has_active_order (st : store) (driver_id : Z) : bool :=
  let c := Z.of_nat (List.length (active_orders_of driver_id (tbl_transport_requests st))) in
  c >? 0.

Definition claim_row (driver_id : Z) (now : timestamp) (r : transport_request)
  : transport_request :=
  mkRequest (tr_id r) (tr_listing_id r) (tr_hospital r) (tr_organ_type r)
    (tr_origin r) (tr_destination r) (tr_contact_phone r) (tr_notes r)
    (tr_priority_status r) "Assigned" (Some driver_id) (tr_created_at r) now.

(** POST /driver-claim/<order_id>; [driver_id] is
    [request.form.get("driver_id", type=int)]. *)
Definition driver_claim (st : store) (now : timestamp) (order_id : Z)
    (driver_id : option Z) : store * response :=
  match driver_id with
  | None => (st, Body "Driver required" 400)
  | Some d =>
      if negb (Py.truthy_int driver_id) then (st, Body "Driver required" 400)
      else if driver_has_active_order st d then
        (st, Body "Driver already has an active order" 400)
      else
        match select_order st order_id with
        | None => (st, Body "Order is no longer available" 400)
        | Some order =>
            if negb (tr_status order =? "Requested")%string then
              (st, Body "Order is no longer available" 400)
            else
              (set_requests st
                 (update_where (fun r => tr_id r =? order_id) (claim_row d now)
                    (tbl_transport_requests st)),
               Redirect "driver_portal" (Some d))
        end
  end.

Definition allowed_statuses : list string :=
  ["Requested"; "Assigned"; "En-route"; "Delivered"].

(** SET status = ?, driver_id = NULL, updated_at = CURRENT_TIMESTAMP *)
Definition revert_row (new_status : string) (now : timestamp)
    (r : transport_request) : transport_request :=
  mkRequest (tr_id r) (tr_listing_id r) (tr_hospital r) (tr_organ_type r)
    (tr_origin r) (tr_destination r) (tr_contact_phone r) (tr_notes r)
    (tr_priority_status r) new_status None (tr_created_at r) now.

(** SET status = ?, updated_at = CURRENT_TIMESTAMP *)
Definition status_row (new_status : string) (now : timestamp)
    (r : transport_request) : transport_request :=
  mkRequest (tr_id r) (tr_listing_id r) (tr_hospital r) (tr_organ_type r)
    (tr_origin r) (tr_destination r) (tr_contact_phone r) (tr_notes r)
    (tr_priority_status r) new_status (tr_driver_id r) (tr_created_at r) now.

(** POST /driver-update-status/<order_id>; [driver_id] is
    [request.form.get("driver_id", type=int)] and [new_status] is
    [request.form.get("status")]. *)
Definition driver_update_status (st : store) (now : timestamp) (order_id : Z)
    (driver_id : option Z) (new_status : option string) : store * response :=
  if negb (Py.truthy_int driver_id) || negb (Py.truthy_str new_status) then
    (st, Body "Driver and status are required" 400)
  else
    let new_status := Py.get new_status "" in
    match select_order st order_id with
    | None => (st, Body "Order not found" 404)
    | Some order =>
        if (tr_status order =? "Delivered")%string then
          (st, Body "Delivered orders cannot be modified" 400)
        else if negb (sql_in new_status allowed_statuses) then
          (st, Body "Invalid status" 400)
        else if (new_status =? "Requested")%string then
          (set_requests st
             (update_where (fun r => tr_id r =? order_id)
                (revert_row new_status now) (tbl_transport_requests st)),
           Redirect "driver_portal" driver_id)
        else
          (set_requests st
             (update_where (fun r => tr_id r =? order_id)
                (status_row new_status now) (tbl_transport_requests st)),
           Redirect "driver_portal" driver_id)
    end.

(** ** Hospital side: placing a request *)

Record transport_form := mkTransportForm {
  f_hospital_id : option string;
  f_destination : option string;
  f_contact_phone : option string;
  f_notes : option string
}.

Record emergency_form := mkEmergencyForm {
  e_hospital : option string;
  e_organ_type : option string;
  e_origin : option string;
  e_destination : option string;
  e_contact_phone : option string;
  e_notes : option string
}.

Definition mark_unavailable (l : listing) : listing :=
  mkListing (l_id l) (l_hospital_id l) (l_hospital_name l) (l_organ_type l)
    (l_blood_type l) (l_priority_status l) "Unavailable" (l_city l) (l_state l)
    (l_created_at l).

(** f"{listing['hospital_name']} ({listing['city']}, {listing['state']})" *)
Definition origin_of (l : listing) : string :=
  (l_hospital_name l ++ " (" ++ l_city l ++ ", " ++ l_state l ++ ")")%string.

(** Modelled from the spec: the schema (seed.sql) is not among the sources.
    The spec's data model gives every transport request an id, a created_at
    and an updated_at; the INSERT of request_transport names none of them,
    so the row takes the next row id and both stamps are the time of the
    INSERT. *)
Definition insert_request (rows : list transport_request) (now : timestamp)
    (listing_id : option Z)
    (hospital organ_type origin destination contact_phone notes priority status : string)
  : list transport_request * Z :=
  let new_id := next_rowid (map tr_id rows) in
  (rows ++ [mkRequest new_id listing_id hospital organ_type origin destination
              contact_phone notes priority status None now now],
   new_id).

Section Handlers.

(** The form sends hospital_id as text and the query compares it with the
    integer id column: [id_of_text] is the integer SQLite reads the bound
    text as, if any.  The development holds for every such reading. *)
Variable id_of_text : string -> option Z.

(** [query("SELECT * FROM hospitals WHERE id = ?", (hospital_id,), one=True)] *)
Definition select_hospital (st : store) (hospital_id : string) : option hospital :=
  match id_of_text hospital_id with
  | Some n => find (fun h => h_id h =? n) (tbl_hospitals st)
  | None => None
  end.

(** /request-transport/<listing_id>, GET and POST *)
Definition request_transport (st : store) (now : timestamp) (meth : http_method)
    (listing_id : Z) (d : transport_form) : store * response :=
  match select_listing st listing_id with
  | None => (st, Abort 404 "Listing not found")
  | Some listing =>
      if negb (l_availability_status listing =? "Available")%string then
        (st, Render "request_transport_unavailable.html" 400)
      else
        match meth with
        | GET => (st, Render "request_transport.html" 200)
        | POST =>
            let hospital_id := f_hospital_id d in
            let destination := Py.strip (Py.get (f_destination d) "") in
            let contact_phone := Py.strip (Py.get (f_contact_phone d) "") in
            let notes := Py.strip (Py.get (f_notes d) "") in
            if negb (Py.truthy_str hospital_id) then
              (st, Body "Hospital is required" 400)
            else
              match select_hospital st (Py.get hospital_id "") with
              | None => (st, Body "Selected hospital not found" 400)
              | Some hospital_row =>
                  if (destination =? "")%string || (contact_phone =? "")%string then
                    (st, Body "Delivery address and contact phone are required" 400)
                  else
                    let origin := origin_of listing in
                    let '(rows, order_id) :=
                      insert_request (tbl_transport_requests st) now
                        (Some (l_id listing)) (h_name hospital_row)
                        (l_organ_type listing) origin destination contact_phone
                        notes (l_priority_status listing) "Requested" in
                    let st1 := set_requests st rows in
                    let st2 :=
                      set_listings st1
                        (update_where (fun l => l_id l =? l_id listing)
                           mark_unavailable (tbl_organ_listings st1)) in
                    (st2, Redirect "order_confirmation" (Some order_id))
              end
        end
  end.

(** /emergency-transport, GET and POST.  [d["key"]] on a missing field
    raises werkzeug's BadRequestKeyError, answered as 400.  The INSERT names
    ten columns and gives eleven values (NULL, seven placeholders,
    'Emergency', 'Requested', NULL) with six arguments bound; sqlite3 refuses
    to prepare such a statement ("11 values for 10 columns"), so [execute]
    raises, Flask answers 500 and no row is written. *)
Definition emergency_transport (st : store) (meth : http_method)
    (d : emergency_form) : store * response :=
  match meth with
  | GET => (st, Render "emergency_transport.html" 200)
  | POST =>
      match e_hospital d, e_organ_type d, e_origin d, e_destination d with
      | Some hospital, Some organ_type, Some origin, Some destination =>
          let contact_phone := Py.get (e_contact_phone d) "" in
          let notes := Py.get (e_notes d) "" in
          (st, Abort 500 "Internal Server Error")
      | _, _, _, _ => (st, Abort 400 "Bad Request")
      end
  end.

(** ** Sequences of lifecycle operations *)

(** The four operations of the lifecycle, each a POST with its arguments. *)
Inductive operation :=
| CreateRequest (listing_id : Z) (d : transport_form)
| CreateEmergencyRequest (d : emergency_form)
| ClaimOrder (order_id : Z) (driver_id : option Z)
| UpdateStatus (order_id : Z) (driver_id : option Z) (new_status : option string).

Definition handle (st : store) (now : timestamp) (op : operation)
  : store * response :=
  match op with
  | CreateRequest listing_id d => request_transport st now POST listing_id d
  | CreateEmergencyRequest d => emergency_transport st POST d
  | ClaimOrder order_id driver_id => driver_claim st now order_id driver_id
  | UpdateStatus order_id driver_id new_status =>
      driver_update_status st now order_id driver_id new_status
  end.

Definition step (st : store) (now : timestamp) (op : operation) : store :=
  fst (handle st now op).

(** Requests served one after the other, each at its own time. *)
Fixpoint run (st : store) (ops : list (timestamp * operation)) : store :=
  match ops with
  | [] => st
  | (now, op) :: rest => run (step st now op) rest
  end.

End Handlers.

(** ** The list views *)

(** SQLite's [s LIKE pat]: [%] stands for any run of characters, [_] for any
    one character, and ASCII letters match without regard to case. *)
Fixpoint sql_like (pat s : string) {struct pat} : bool :=
  match pat with
  | EmptyString =>
      match s with
      | EmptyString => true
      | String _ _ => false
      end
  | String c pat' =>
      if Ascii.eqb c "%" then
        (fix any_suffix (s : string) : bool :=
           sql_like pat' s ||
           match s with
           | EmptyString => false
           | String _ s' => any_suffix s'
           end) s
      else
        match s with
        | EmptyString => false
        | String x s' =>
            (Ascii.eqb c "_" || Ascii.eqb (Py.lower_char c) (Py.lower_char x))
            && sql_like pat' s'
        end
  end.

Section OrderBy.

Context {A : Type}.
Variable leb : A -> A -> bool.

Fixpoint insert_row (x : A) (l : list A) : list A :=
  match l with
  | [] => [x]
  | y :: l' => if leb x y then x :: l else y :: insert_row x l'
  end.

(** [ORDER BY]: the rows in the order of [leb].  SQL leaves the order of
    rows with equal keys open; this sort keeps them in table order. *)
Definition order_by (l : list A) : list A := fold_right insert_row [] l.

End OrderBy.

(** [(rank a, key a)] against [(rank b, key b)]: first the rank, then [le2]. *)
Definition rank_then {A : Type} (rank : A -> Z) (le2 : A -> A -> bool) (a b : A)
  : bool :=
  (rank a <? rank b) || ((rank a =? rank b) && le2 a b).

(** CASE priority_status WHEN 'Emergency' THEN 1 WHEN 'Critical' THEN 2
    WHEN 'Urgent' THEN 3 ELSE 4 END *)
Definition catalog_rank (priority_status : string) : Z :=
  if (priority_status =? "Emergency")%string then 1
  else if (priority_status =? "Critical")%string then 2
  else if (priority_status =? "Urgent")%string then 3
  else 4.

(** CASE tr.priority_status WHEN 'Emergency' THEN 1 WHEN 'Urgent' THEN 2
    WHEN 'Critical' THEN 3 ELSE 4 END *)
Definition driver_rank (priority_status : string) : Z :=
  if (priority_status =? "Emergency")%string then 1
  else if (priority_status =? "Urgent")%string then 2
  else if (priority_status =? "Critical")%string then 3
  else 4.

(** The WHERE clause /organ-listings builds from its three arguments. *)
Definition catalog_where (q typ availability : string) (l : listing) : bool :=
  (if negb (typ =? "")%string && negb (typ =? "All")%string
   then (Py.lower (l_organ_type l) =? Py.lower typ)%string else true)
  && (if (availability =? "Available")%string
      then (l_availability_status l =? "Available")%string
      else if (availability =? "Unavailable")%string
      then (l_availability_status l =? "Unavailable")%string
      else true)
  && (if negb (q =? "")%string then
        let like := ("%" ++ q ++ "%")%string in
        sql_like like (Py.lower (l_organ_type l))
        || sql_like like (Py.lower (l_blood_type l))
        || sql_like like (Py.lower (l_hospital_name l))
        || sql_like like (Py.lower (l_city l))
        || sql_like like (Py.lower (l_state l))
      else true).

(** ORDER BY CASE priority_status ... END, created_at DESC *)
Definition catalog_leb : listing -> listing -> bool :=
  rank_then (fun l => catalog_rank (l_priority_status l))
    (fun a b => String.leb (l_created_at b) (l_created_at a)).

(** GET /organ-listings?q&type&availability: the rows handed to the
    template as [organs]. *)
Definition organ_listings (st : store) (q typ availability : option string)
  : list listing :=
  let q := Py.lower (Py.strip (Py.get q "")) in
  let typ := Py.get typ "All" in
  let availability := Py.get availability "All" in
  order_by catalog_leb
    (filter (catalog_where q typ availability) (tbl_organ_listings st)).

(** A row of [transport_requests tr LEFT JOIN organ_listings ol ON
    tr.listing_id = ol.id]: the request and the listing it joins, if any. *)
Definition joined_request : Type := transport_request * option listing.

Definition left_join_listing (listings : list listing) (r : transport_request)
  : list joined_request :=
  match filter (fun l => sql_eq_int (tr_listing_id r) (l_id l)) listings with
  | [] => [(r, None)]
  | ls => map (fun l => (r, Some l)) ls
  end.

(** WHERE tr.status = 'Requested' AND (tr.driver_id IS NULL) *)
Definition is_available (j : joined_request) : bool :=
  (tr_status (fst j) =? "Requested")%string
  && match tr_driver_id (fst j) with None => true | Some _ => false end.

(** ORDER BY CASE tr.priority_status ... END, tr.created_at ASC *)
Definition available_leb : joined_request -> joined_request -> bool :=
  rank_then (fun j => driver_rank (tr_priority_status (fst j)))
    (fun a b => String.leb (tr_created_at (fst a)) (tr_created_at (fst b))).

(** The [available_orders] of GET /driver-portal. *)
Definition available_orders (st : store) : list joined_request :=
  order_by available_leb
    (filter is_available
       (flat_map (left_join_listing (tbl_organ_listings st))
          (tbl_transport_requests st))).

(** ** The properties of the lifecycle, in the words of the specification *)

(** The driver already has an order with status Assigned or En-route. *)
Definition has_active_order (st : store) (driver_id : Z) : Prop :=
  exists r, In r (tbl_transport_requests st)
            /\ tr_driver_id r = Some driver_id
            /\ (tr_status r = "Assigned" \/ tr_status r = "En-route").




(** At most one active (Assigned or En-route) request per driver. *)
Definition at_most_one_active (st : store) : Prop :=
  forall d, (List.length (active_orders_of d (tbl_transport_requests st)) <= 1)%nat.

(** driver_id is non-null iff the status is Assigned or En-route. *)
Definition driver_iff_active (st : store) : Prop :=
  Forall (fun r => tr_driver_id r <> None
                   <-> (tr_status r = "Assigned" \/ tr_status r = "En-route"))
         (tbl_transport_requests st).

(** A request that carries a driver is Assigned, En-route or Delivered. *)
Definition driver_implies_taken (st : store) : Prop :=
  Forall (fun r => tr_driver_id r <> None ->
                   tr_status r = "Assigned" \/ tr_status r = "En-route"
                   \/ tr_status r = "Delivered")
         (tbl_transport_requests st).

(** The id column is the table's key. *)
Definition unique_ids (st : store) : Prop :=
  NoDup (map tr_id (tbl_transport_requests st)).

(** UpdateStatus on a Delivered order, as the specification words it. *)
Definition Delivered_terminal_spec (st : store) (now : timestamp) (order_id : Z)
    (driver_id : option Z) (new_status : option string) : Prop :=
  driver_update_status st now order_id driver_id new_status
  = (st, Body "Delivered orders cannot be modified" 400).


(** The edges of the lifecycle: Requested -> Assigned -> En-route ->
    Delivered, and the reversion Assigned -> Requested. *)
Definition lifecycle_edge (old new : string) : Prop :=
  (old = "Requested" /\ new = "Assigned")
  \/ (old = "Assigned" /\ new = "En-route")
  \/ (old = "En-route" /\ new = "Delivered")
  \/ (old = "Assigned" /\ new = "Requested").



(** The status of every stored row with the given id. *)
Definition statuses_of (st : store) (order_id : Z) : list string :=
  map tr_status (filter (fun r => tr_id r =? order_id) (tbl_transport_requests st)).

(** ** Further statements of the specification, and the step relation *)

(** The row function an accepted UpdateStatus applies. *)
Definition update_row (s : string) (now : timestamp)
  : transport_request -> transport_request :=
  if (s =? "Requested")%string then revert_row s now else status_row s now.

(** UpdateStatus run with two driver ids leaves the same store. *)
Definition UpdateStatus_driver_blind_spec (st : store) (now : timestamp)
    (order_id d1 d2 : Z) (new_status : option string) : Prop :=
  fst (driver_update_status st now order_id (Some d1) new_status)
  = fst (driver_update_status st now order_id (Some d2) new_status).

(** ** What one operation does to the table of requests *)

Inductive table_step (rows : list transport_request)
  : list transport_request -> Prop :=
| ts_same : table_step rows rows
| ts_insert (row : transport_request) :
    tr_driver_id row = None ->
    tr_status row = "Requested" ->
    tr_id row = next_rowid (map tr_id rows) ->
    table_step rows (rows ++ [row])
| ts_claim (order_id d : Z) (now : timestamp) (o : transport_request) :
    List.length (active_orders_of d rows) = 0%nat ->
    find (fun r => tr_id r =? order_id) rows = Some o ->
    tr_status o = "Requested" ->
    table_step rows
      (update_where (fun r => tr_id r =? order_id) (claim_row d now) rows)
| ts_update (order_id : Z) (s : string) (now : timestamp) (o : transport_request) :
    find (fun r => tr_id r =? order_id) rows = Some o ->
    tr_status o <> "Delivered" ->
    sql_in s allowed_statuses = true ->
    table_step rows
      (update_where (fun r => tr_id r =? order_id) (update_row s now) rows).

(** C2 as the specification words it: the bound carries over from any
    state that satisfies it. *)
Definition single_active_spec (id_of_text : string -> option Z) (st : store)
    (ops : list (timestamp * operation)) : Prop :=
  at_most_one_active st -> at_most_one_active (run id_of_text st ops).

(** C3 as the specification words it: one operation keeps the
    biconditional. *)
Definition driver_iff_active_spec (id_of_text : string -> option Z) (st : store)
    (now : timestamp) (op : operation) : Prop :=
  driver_iff_active st -> driver_iff_active (step id_of_text st now op).





(** ** Sample data *)

(** Decimal text as an id, the reading used in the examples. *)
Definition decimal_id (s : string) : option Z :=
  option_map Z.of_int (DecimalString.NilZero.int_of_string s).

Definition sample_hospitals : list hospital :=
  [mkHospital 1 "H1" "Dallas" "TX" "h1@example.org";
   mkHospital 2 "H2" "Austin" "TX" "h2@example.org"].

Definition sample_listing : listing :=
  mkListing 1 1 "H1" "Kidney" "O+" "Critical" "Available" "Dallas" "TX"
    "2025-01-01 08:00:00".

Definition sample_order (id : Z) (status : string) (driver_id : option Z)
  : transport_request :=
  mkRequest id None "H2" "Kidney" "H1 (Dallas, TX)" "123 Main St" "555-1111" ""
    "Critical" status driver_id "2025-01-01 09:00:00" "2025-01-01 09:00:00".

Definition sample_store (rows : list transport_request) : store :=
  mkStore sample_hospitals [sample_listing] rows.

Definition sample_form (hospital_id destination : string) : transport_form :=
  mkTransportForm (Some hospital_id) (Some destination) (Some "555-1111") None.

Definition catalog_sample : store :=
  mkStore sample_hospitals
    [mkListing 1 1 "H1" "Kidney" "O+" "Urgent" "Available" "Dallas" "TX"
       "2025-01-01 08:00:00";
     mkListing 2 1 "H1" "Liver" "A-" "Critical" "Available" "Dallas" "TX"
       "2025-01-01 09:00:00";
     mkListing 3 2 "H2" "Kidney" "B+" "Critical" "Unavailable" "Austin" "TX"
       "2025-01-02 09:00:00";
     mkListing 4 2 "H2" "Heart" "AB+" "Emergency" "Available" "Austin" "TX"
       "2025-01-01 07:00:00"]
    [mkRequest 1 (Some 3) "H1" "Kidney" "H2 (Austin, TX)" "1 Elm St" "555" ""
       "Critical" "Requested" None "2025-01-03 08:00:00" "2025-01-03 08:00:00";
     mkRequest 2 None "H1" "Heart" "H2" "1 Elm St" "555" ""
       "Urgent" "Requested" None "2025-01-03 09:00:00" "2025-01-03 09:00:00";
     mkRequest 3 None "H1" "Lung" "H2" "1 Elm St" "555" ""
       "Urgent" "Requested" None "2025-01-03 07:00:00" "2025-01-03 07:00:00";
     mkRequest 4 None "H1" "Lung" "H2" "1 Elm St" "555" ""
       "Emergency" "Assigned" (Some 7) "2025-01-03 06:00:00" "2025-01-03 06:30:00"].

Definition t1 : timestamp := "2025-01-02 10:00:00".
Definition t2 : timestamp := "2025-01-02 11:00:00".

(** ** The rest of the application *)

(** ORDER BY created_at DESC on listings *)
Definition newest_first (a b : listing) : bool :=
  String.leb (l_created_at b) (l_created_at a).

(** GET /api/organs: the rows turned into the JSON array. *)
Definition api_organs (st : store) : list listing :=
  order_by newest_first (tbl_organ_listings st).

(** [range(preferred, preferred + 20)] *)
Definition try_ports (preferred : Z) : list Z :=
  map (fun i => preferred + Z.of_nat i) (seq 0 20).

(** What [_find_free_port] leaves its caller with: a port, or an exception
    it does not catch. *)
Inductive port_result :=
| Port (p : Z)
| Raised (exception : string).

Section Ports.

(** [can_bind p]: a fresh socket binds to ("0.0.0.0", p); otherwise the
    attempt raises OSError.  [os_port]: the port the system assigns when
    binding to port 0, if that bind succeeds. *)
Variable can_bind : Z -> bool.
Variable os_port : option Z.

(** The loop over [try_ports].  [bind] raises OverflowError, which the
    [except OSError] does not catch, for a port outside 0..65535. *)
Fixpoint scan_ports (ports : list Z) : option port_result :=
  match ports with
  | [] => None
  | p :: rest =>
      if (p <? 0) || (65535 <? p) then Some (Raised "OverflowError")
      else if can_bind p then Some (Port p)
      else scan_ports rest
  end.

Definition _find_free_port (preferred : Z) : port_result :=
  match scan_ports (try_ports preferred) with
  | Some r => r
  | None =>
      match os_port with
      | Some port => Port port
      | None => Raised "OSError"
      end
  end.

End Ports.

(** The drivers and the applications they came from.  The columns are the
    five the INSERTs of apply_driver name, and the id. *)
Record driver := mkDriver {
  d_id : Z;
  d_first_name : string;
  d_last_name : string;
  d_email : string;
  d_phone : string;
  d_cdl : string
}.

Record driver_application := mkApplication {
  a_id : Z;
  a_first_name : string;
  a_last_name : string;
  a_email : string;
  a_phone : string;
  a_cdl : string
}.

Record directory := mkDirectory {
  tbl_drivers : list driver;
  tbl_driver_applications : list driver_application
}.

Record driver_form := mkDriverForm {
  df_first_name : option string;
  df_last_name : option string;
  df_email : option string;
  df_phone : option string;
  df_cdl : option string
}.

(** POST /apply-driver: the application is stored, then the driver. *)
Definition apply_driver (dir : directory) (d : driver_form) : directory * response :=
  match df_first_name d, df_last_name d, df_email d, df_phone d, df_cdl d with
  | Some first_name, Some last_name, Some email, Some phone, Some cdl =>
      let dir1 :=
        mkDirectory (tbl_drivers dir)
          (tbl_driver_applications dir
           ++ [mkApplication (next_rowid (map a_id (tbl_driver_applications dir)))
                 first_name last_name email phone cdl]) in
      let dir2 :=
        mkDirectory
          (tbl_drivers dir1
           ++ [mkDriver (next_rowid (map d_id (tbl_drivers dir1)))
                 first_name last_name email phone cdl])
          (tbl_driver_applications dir1) in
      (dir2, Redirect "driver_portal" None)
  | _, _, _, _, _ => (dir, Abort 400 "Bad Request")
  end.

(** ORDER BY first_name, last_name *)
Definition driver_name_leb (a b : driver) : bool :=
  String.ltb (d_first_name a) (d_first_name b)
  || (String.eqb (d_first_name a) (d_first_name b)
      && String.leb (d_last_name a) (d_last_name b)).

(** All requests joined with their listings. *)
Definition joined_requests (st : store) : list joined_request :=
  flat_map (left_join_listing (tbl_organ_listings st)) (tbl_transport_requests st).

(** ORDER BY tr.created_at DESC *)
Definition created_desc (a b : joined_request) : bool :=
  String.leb (tr_created_at (fst b)) (tr_created_at (fst a)).

(** ORDER BY tr.updated_at DESC *)
Definition updated_desc (a b : joined_request) : bool :=
  String.leb (tr_updated_at (fst b)) (tr_updated_at (fst a)).

(** WHERE tr.driver_id = ? AND tr.status IN ('Assigned','En-route') *)
Definition is_current_of (did : Z) (j : joined_request) : bool :=
  sql_eq_int (tr_driver_id (fst j)) did && is_active (fst j).

(** WHERE tr.driver_id = ? AND tr.status = 'Delivered' *)
Definition is_completed_of (did : Z) (j : joined_request) : bool :=
  sql_eq_int (tr_driver_id (fst j)) did && (tr_status (fst j) =? "Delivered")%string.

(** What GET /driver-portal hands to its template. *)
Record portal_view := mkPortal {
  pv_drivers : list driver;
  pv_selected_driver : option driver;
  pv_current_order : option joined_request;
  pv_completed_orders : list joined_request;
  pv_available_orders : list joined_request
}.

(** GET /driver-portal?driver_id; [selected_id] is
    [request.args.get("driver_id", type=int)]. *)
Definition driver_portal (st : store) (dir : directory) (selected_id : option Z)
  : portal_view :=
  let drivers := order_by driver_name_leb (tbl_drivers dir) in
  let selected_driver :=
    match drivers with
    | [] => None
    | first :: _ =>
        let found :=
          match selected_id with
          | Some n =>
              if Py.truthy_int selected_id
              then find (fun d => d_id d =? n) (tbl_drivers dir)
              else None
          | None => None
          end in
        match found with
        | Some d => Some d
        | None => Some first
        end
    end in
  match selected_driver with
  | Some d =>
      let did := d_id d in
      mkPortal drivers selected_driver
        (hd_error (order_by created_desc (filter (is_current_of did) (joined_requests st))))
        (firstn 20 (order_by updated_desc (filter (is_completed_of did) (joined_requests st))))
        (available_orders st)
  | None => mkPortal drivers None None [] (available_orders st)
  end.




Record hospital_form := mkHospitalForm {
  hf_name : option string;
  hf_city : option string;
  hf_state : option string;
  hf_email : option string
}.

Definition set_hospitals (st : store) (hs : list hospital) : store :=
  mkStore hs (tbl_organ_listings st) (tbl_transport_requests st).

(** /hospital-registration, GET and POST *)
Definition hospital_registration (st : store) (meth : http_method)
    (d : hospital_form) : store * response :=
  match meth with
  | GET => (st, Render "hospital_registration.html" 200)
  | POST =>
      match hf_name d, hf_city d, hf_state d, hf_email d with
      | Some name, Some city, Some state, Some email =>
          (set_hospitals st
             (tbl_hospitals st
              ++ [mkHospital (next_rowid (map h_id (tbl_hospitals st)))
                    name city state email]),
           Redirect "for_hospitals" None)
      | _, _, _, _ => (st, Abort 400 "Bad Request")
      end
  end.

Record listing_form := mkListingForm {
  lf_hospital_id : option string;
  lf_organ_type : option string;
  lf_blood_type : option string;
  lf_age : option string;
  lf_weight_kg : option string;
  lf_priority_status : option string;
  lf_availability_status : option string
}.

(** What GET /for_hospitals hands to its template. *)
Record hospital_view := mkHospitalView {
  hv_hospitals : list hospital;
  hv_selected_hospital : option hospital;
  hv_outbound : list joined_request;
  hv_inbound : list joined_request;
  hv_listings : list listing
}.

(** ORDER BY name ASC *)
Definition hospital_name_leb (a b : hospital) : bool :=
  String.leb (h_name a) (h_name b).

(** WHERE ol.hospital_name = ? on a joined row: false without a listing. *)
Definition is_inbound_of (hname : string) (j : joined_request) : bool :=
  match snd j with
  | Some l => (l_hospital_name l =? hname)%string
  | None => false
  end.

Section HospitalPages.

Variable id_of_text : string -> option Z.

(** [int(text)] and [float(text)] succeed; they raise ValueError otherwise. *)
Variable int_ok : string -> bool.
Variable float_ok : string -> bool.

(** GET /for_hospitals?hospital_id *)
Definition for_hospitals (st : store) (selected_id : option string)
  : hospital_view :=
  let hospitals := order_by hospital_name_leb (tbl_hospitals st) in
  let selected_hospital :=
    match hospitals with
    | [] => None
    | first :: _ =>
        let found :=
          if Py.truthy_str selected_id
          then select_hospital id_of_text st (Py.get selected_id "")
          else None in
        match found with
        | Some h => Some h
        | None => Some first
        end
    end in
  match selected_hospital with
  | Some h =>
      let hname := h_name h in
      mkHospitalView hospitals selected_hospital
        (order_by created_desc
           (filter (fun j => (tr_hospital (fst j) =? hname)%string) (joined_requests st)))
        (order_by created_desc (filter (is_inbound_of hname) (joined_requests st)))
        (order_by newest_first
           (filter (fun l => (l_hospital_name l =? hname)%string) (tbl_organ_listings st)))
  | None => mkHospitalView hospitals None [] [] []
  end.

(** /new-listing, GET and POST.  The age and weight_kg the form sends are
    converted and stored in columns outside the model; a text [int] or
    [float] refuses raises ValueError, answered as 500.  The created_at of
    the new row is the time of the INSERT, as for requests. *)
Definition new_listing (st : store) (now : timestamp) (meth : http_method)
    (d : listing_form) : store * response :=
  match meth with
  | GET => (st, Render "new_listing.html" 200)
  | POST =>
      let hospital_id := lf_hospital_id d in
      if negb (Py.truthy_str hospital_id) then
        (st, Body "Hospital selection is required" 400)
      else
        match select_hospital id_of_text st (Py.get hospital_id "") with
        | None => (st, Body "Hospital not found" 400)
        | Some hrow =>
            let priority := Py.get (lf_priority_status d) "Normal" in
            let availability := Py.get (lf_availability_status d) "Available" in
            match lf_organ_type d, lf_blood_type d, lf_age d with
            | Some organ_type, Some blood_type, Some age =>
                if negb (int_ok age) then (st, Abort 500 "Internal Server Error")
                else
                  match lf_weight_kg d with
                  | Some weight_kg =>
                      if negb (float_ok weight_kg) then
                        (st, Abort 500 "Internal Server Error")
                      else
                        (set_listings st
                           (tbl_organ_listings st
                            ++ [mkListing
                                  (next_rowid (map l_id (tbl_organ_listings st)))
                                  (h_id hrow) (h_name hrow) organ_type blood_type
                                  priority availability (h_city hrow) (h_state hrow)
                                  now]),
                         Redirect "for_hospitals" (Some (h_id hrow)))
                  | None => (st, Abort 400 "Bad Request")
                  end
            | _, _, _ => (st, Abort 400 "Bad Request")
            end
        end
  end.

End HospitalPages.

(** The columns of a request no handler rewrites. *)
Definition same_fixed_columns (r r' : transport_request) : Prop :=
  tr_id r' = tr_id r /\ tr_listing_id r' = tr_listing_id r
  /\ tr_hospital r' = tr_hospital r /\ tr_organ_type r' = tr_organ_type r
  /\ tr_origin r' = tr_origin r /\ tr_destination r' = tr_destination r
  /\ tr_contact_phone r' = tr_contact_phone r /\ tr_notes r' = tr_notes r
  /\ tr_priority_status r' = tr_priority_status r
  /\ tr_created_at r' = tr_created_at r.

(** A listing row after an operation: itself, or itself made Unavailable. *)
Definition same_or_taken (l l' : listing) : Prop :=
  l_id l' = l_id l /\ l_hospital_id l' = l_hospital_id l
  /\ l_hospital_name l' = l_hospital_name l /\ l_organ_type l' = l_organ_type l
  /\ l_blood_type l' = l_blood_type l
  /\ l_priority_status l' = l_priority_status l
  /\ l_city l' = l_city l /\ l_state l' = l_state l
  /\ l_created_at l' = l_created_at l
  /\ (l_availability_status l' = l_availability_status l
      \/ l_availability_status l' = "Unavailable").

(** Every status in the table is one of the four names. *)
Definition statuses_allowed (st : store) : Prop :=
  Forall (fun r => sql_in (tr_status r) allowed_statuses = true)
         (tbl_transport_requests st).



Definition sample_directory : directory :=
  mkDirectory
    [mkDriver 7 "Dana" "Ruiz" "dana@example.org" "555-0007" "CDL-7";
     mkDriver 5 "Alex" "Moss" "alex@example.org" "555-0005" "CDL-5"]
    [].

(** ** Facts about the queries *)

Lemma is_active_iff (r : transport_request) :
  is_active r = true <-> tr_status r = "Assigned" \/ tr_status r = "En-route".
Proof.
  unfold is_active, sql_in, existsb.
  rewrite !orb_true_iff, !String.eqb_eq. intuition discriminate.
Qed.

Lemma sql_eq_int_iff (col : option Z) (v : Z) :
  sql_eq_int col v = true <-> col = Some v.
Proof.
  destruct col as [c|]; simpl.
  - rewrite Z.eqb_eq. split; [intros ->; reflexivity | intros [= ->]; reflexivity].
  - split; discriminate.
Qed.

Lemma filter_nonempty_iff {A : Type} (p : A -> bool) (l : list A) :
  (0 < List.length (filter p l))%nat <-> exists x, In x l /\ p x = true.
Proof.
  split.
  - intros H. destruct (filter p l) as [|x t] eqn:E; [simpl in H; lia|].
    assert (Hin : In x (filter p l)) by (rewrite E; left; reflexivity).
    apply filter_In in Hin. exists x. exact Hin.
  - intros [x Hx]. apply filter_In in Hx.
    destruct (filter p l); [contradiction | simpl; lia].
Qed.

Lemma driver_has_active_order_iff (st : store) (d : Z) :
  driver_has_active_order st d = true <-> has_active_order st d.
Proof.
  unfold driver_has_active_order, has_active_order, active_orders_of.
  rewrite Z.gtb_ltb, Z.ltb_lt.
  change 0 with (Z.of_nat 0). rewrite <- Nat2Z.inj_lt, filter_nonempty_iff.
  split; intros [r [Hin H]]; exists r; (split; [exact Hin|]).
  - apply andb_true_iff in H as [Hd Ha].
    split; [apply sql_eq_int_iff, Hd | apply is_active_iff, Ha].
  - destruct H as [Hd Ha]. apply andb_true_iff.
    split; [apply sql_eq_int_iff, Hd | apply is_active_iff, Ha].
Qed.

Lemma find_update_where (order_id : Z) (f : transport_request -> transport_request)
    (rows : list transport_request) :
  (forall r, tr_id (f r) = tr_id r) ->
  find (fun r => tr_id r =? order_id) (update_where (fun r => tr_id r =? order_id) f rows)
  = option_map f (find (fun r => tr_id r =? order_id) rows).
Proof.
  intros Hid. induction rows as [|r rows IH]; simpl; [reflexivity|].
  destruct (tr_id r =? order_id) eqn:E.
  - rewrite Hid, E. reflexivity.
  - rewrite E. exact IH.
Qed.


(** ** ClaimOrder *)




(** What the handler answers to a missing or zero driver_id. *)
Lemma driver_claim_requires_driver (st : store) (now : timestamp) (order_id : Z)
    (driver_id : option Z) :
  Py.truthy_int driver_id = false ->
  driver_claim st now order_id driver_id = (st, Body "Driver required" 400).
Proof.
  unfold driver_claim. destruct driver_id as [d|]; [|reflexivity].
  intros ->. reflexivity.
Qed.

(** ** UpdateStatus *)

Lemma Forall2_update_where {A : Type} (R : A -> A -> Prop) (p : A -> bool)
    (f : A -> A) (rows : list A) :
  (forall r, In r rows -> R r (if p r then f r else r)) ->
  Forall2 R rows (update_where p f rows).
Proof.
  induction rows as [|r rows IH]; intros H; simpl; constructor.
  - apply H. left; reflexivity.
  - apply IH. intros x Hx. apply H. right; exact Hx.
Qed.




Lemma update_row_id (s : string) (now : timestamp) (r : transport_request) :
  tr_id (update_row s now r) = tr_id r.
Proof. unfold update_row. destruct (s =? "Requested")%string; reflexivity. Qed.

(** The handler accepts exactly the calls that pass its four checks, and
    then rewrites the rows of that id with [update_row]. *)
Lemma driver_update_status_accepted (st st' : store) (now : timestamp)
    (order_id : Z) (driver_id : option Z) (new_status : option string)
    (endpoint : string) (arg : option Z) :
  driver_update_status st now order_id driver_id new_status
  = (st', Redirect endpoint arg) ->
  exists s o,
    new_status = Some s /\ s <> "" /\ Py.truthy_int driver_id = true
    /\ select_order st order_id = Some o /\ tr_status o <> "Delivered"
    /\ sql_in s allowed_statuses = true
    /\ st' = set_requests st
               (update_where (fun r => tr_id r =? order_id) (update_row s now)
                  (tbl_transport_requests st)).
Proof.
  unfold driver_update_status.
  destruct (Py.truthy_int driver_id) eqn:Hd; cbn [negb orb]; [|discriminate].
  destruct new_status as [s|]; cbn [Py.truthy_str Py.get negb]; [|discriminate].
  destruct (s =? "")%string eqn:Hs; cbn [negb]; [discriminate|].
  destruct (select_order st order_id) as [o|] eqn:Ho; [|discriminate].
  destruct (tr_status o =? "Delivered")%string eqn:Hdel; [discriminate|].
  destruct (sql_in s allowed_statuses) eqn:Hal; cbn [negb]; [|discriminate].
  intros H. exists s, o.
  apply String.eqb_neq in Hs, Hdel.
  repeat (split; [assumption || reflexivity|]).
  unfold update_row.
  destruct (s =? "Requested")%string; injection H as <- _ _; reflexivity.
Qed.

Lemma driver_update_status_accepts (st : store) (now : timestamp) (order_id d : Z)
    (s : string) (o : transport_request) :
  d <> 0 -> s <> "" -> select_order st order_id = Some o ->
  tr_status o <> "Delivered" -> sql_in s allowed_statuses = true ->
  driver_update_status st now order_id (Some d) (Some s)
  = (set_requests st
       (update_where (fun r => tr_id r =? order_id) (update_row s now)
          (tbl_transport_requests st)),
     Redirect "driver_portal" (Some d)).
Proof.
  intros Hd Hs Ho Hdel Hal.
  unfold driver_update_status, update_row, Py.truthy_int, Py.truthy_str, Py.get.
  apply Z.eqb_neq in Hd. apply String.eqb_neq in Hs, Hdel.
  rewrite Hd, Hs, Ho, Hdel, Hal; cbn [negb orb].
  destruct (s =? "Requested")%string; reflexivity.
Qed.

(** C4, as amended: on a Delivered order UpdateStatus always fails with
    HTTP 400 and leaves the store as it was, whatever the driver and the new
    status; the message is "Delivered orders cannot be modified" whenever a
    non-zero driver_id and a non-empty status are sent, and "Driver and
    status are required" otherwise. *)
Theorem delivered_orders_rejected (st : store) (now : timestamp) (order_id : Z)
    (driver_id : option Z) (new_status : option string) (o : transport_request) :
  select_order st order_id = Some o -> tr_status o = "Delivered" ->
  fst (driver_update_status st now order_id driver_id new_status) = st
  /\ http_code (snd (driver_update_status st now order_id driver_id new_status)) = 400
  /\ (Py.truthy_int driver_id = true -> Py.truthy_str new_status = true ->
      Delivered_terminal_spec st now order_id driver_id new_status)
  /\ (Py.truthy_int driver_id = false \/ Py.truthy_str new_status = false ->
      snd (driver_update_status st now order_id driver_id new_status)
      = Body "Driver and status are required" 400).
Proof.
  intros Ho Hdel. unfold Delivered_terminal_spec, driver_update_status.
  rewrite Ho, Hdel; simpl.
  destruct (Py.truthy_int driver_id), (Py.truthy_str new_status); simpl;
    repeat split; intros; try reflexivity; try discriminate;
    intuition discriminate.
Qed.

Lemma delivered_orders_rejected_witness :
  let st := sample_store [sample_order 1 "Delivered" (Some 7)] in
  fst (driver_update_status st t1 1 (Some 5) (Some "Requested")) = st
  /\ http_code (snd (driver_update_status st t1 1 (Some 5) (Some "Requested"))) = 400.
Proof.
  intros st.
  destruct (delivered_orders_rejected st t1 1 (Some 5) (Some "Requested")
              (sample_order 1 "Delivered" (Some 7)) eq_refl eq_refl)
    as [H1 [H2 _]].
  split; [exact H1 | exact H2].
Defined.

(** C4, as stated, fails for the empty new_status: order 1 is Delivered, yet
    the answer is "Driver and status are required", not "Delivered orders
    cannot be modified". *)
Lemma delivered_order_empty_status :
  let st := sample_store [sample_order 1 "Delivered" (Some 7)] in
  option_map tr_status (select_order st 1) = Some "Delivered"
  /\ ~ Delivered_terminal_spec st t1 1 (Some 7) (Some "").
Proof.
  split; [reflexivity|].
  unfold Delivered_terminal_spec. vm_compute. discriminate.
Qed.



(** A call either leaves the store alone or rewrites the rows of one id. *)
Lemma driver_update_status_cases (st : store) (now : timestamp) (order_id : Z)
    (driver_id : option Z) (new_status : option string) :
  fst (driver_update_status st now order_id driver_id new_status) = st
  \/ exists s o,
       new_status = Some s /\ select_order st order_id = Some o
       /\ tr_status o <> "Delivered" /\ sql_in s allowed_statuses = true
       /\ fst (driver_update_status st now order_id driver_id new_status)
          = set_requests st
              (update_where (fun r => tr_id r =? order_id) (update_row s now)
                 (tbl_transport_requests st)).
Proof.
  destruct (driver_update_status st now order_id driver_id new_status)
    as [st' resp] eqn:E.
  destruct resp as [text code|code descr|template code|endpoint arg].
  4: { right. apply driver_update_status_accepted in E.
       destruct E as [s [o [Hs [_ [_ [Ho [Hdel [Hal ->]]]]]]]].
       exists s, o. repeat (split; [assumption|]). reflexivity. }
  all: left; revert E; unfold driver_update_status;
    repeat match goal with
           | |- context [if ?c then _ else _] => destruct c
           | |- context [match ?c with Some _ => _ | None => _ end] => destruct c
           end;
    intros E; simpl; congruence.
Qed.

(** C10, as amended: for any two driver ids other than 0, UpdateStatus
    leaves the same store; no row's driver_id ever becomes the supplied one
    (it is kept or set to null); and any such driver changes the status of
    any existing order that is not Delivered to any allowed status, whoever
    the order is assigned to. *)
Theorem update_status_ignores_driver (st : store) (now : timestamp)
    (order_id d1 d2 : Z) (new_status : option string) :
  d1 <> 0 -> d2 <> 0 ->
  UpdateStatus_driver_blind_spec st now order_id d1 d2 new_status
  /\ Forall2 (fun r r' => tr_driver_id r' = tr_driver_id r \/ tr_driver_id r' = None)
       (tbl_transport_requests st)
       (tbl_transport_requests
          (fst (driver_update_status st now order_id (Some d1) new_status)))
  /\ (forall s o, new_status = Some s -> s <> "" ->
        select_order st order_id = Some o -> tr_status o <> "Delivered" ->
        sql_in s allowed_statuses = true ->
        snd (driver_update_status st now order_id (Some d1) new_status)
        = Redirect "driver_portal" (Some d1)
        /\ exists o',
             select_order
               (fst (driver_update_status st now order_id (Some d1) new_status))
               order_id = Some o'
             /\ tr_status o' = s).
Proof.
  intros H1 H2. split; [|split].
  - unfold UpdateStatus_driver_blind_spec, driver_update_status, Py.truthy_int.
    apply Z.eqb_neq in H1, H2. rewrite H1, H2.
    repeat match goal with
           | |- context [if ?c then _ else _] => destruct c
           | |- context [match ?c with Some _ => _ | None => _ end] => destruct c
           end; reflexivity.
  - destruct (driver_update_status_cases st now order_id (Some d1) new_status)
      as [-> | [s [o [_ [_ [_ [_ ->]]]]]]].
    + clear. induction (tbl_transport_requests st); constructor; auto.
    + simpl. apply Forall2_update_where. intros r _.
      destruct (tr_id r =? order_id); [|left; reflexivity].
      unfold update_row. destruct (s =? "Requested")%string; simpl; auto.
  - intros s o -> Hs Ho Hdel Hal.
    rewrite (driver_update_status_accepts st now order_id d1 s o H1 Hs Ho Hdel Hal).
    split; [reflexivity|]. simpl.
    exists (update_row s now o). unfold select_order in *; simpl.
    rewrite find_update_where by (intros; apply update_row_id).
    rewrite Ho. split; [reflexivity|].
    unfold update_row. destruct (s =? "Requested")%string; reflexivity.
Qed.

Lemma update_status_ignores_driver_witness :
  let st := sample_store [sample_order 1 "Assigned" (Some 7)] in
  UpdateStatus_driver_blind_spec st t1 1 5 9 (Some "En-route")
  /\ snd (driver_update_status st t1 1 (Some 5) (Some "En-route"))
     = Redirect "driver_portal" (Some 5).
Proof.
  intros st.
  destruct (update_status_ignores_driver st t1 1 5 9 (Some "En-route"))
    as [Hsame [_ Hany]]; [lia | lia |].
  split; [exact Hsame|].
  apply (Hany "En-route" (sample_order 1 "Assigned" (Some 7)));
    [reflexivity | discriminate | reflexivity | discriminate | reflexivity].
Defined.

(** C10, as stated, fails for the non-null driver ids 0 and 5: with 0 the
    call is refused and order 1 stays Assigned, with 5 it becomes En-route. *)
Lemma update_status_zero_driver_differs :
  ~ UpdateStatus_driver_blind_spec
      (sample_store [sample_order 1 "Assigned" (Some 7)]) t1 1 0 5 (Some "En-route").
Proof.
  unfold UpdateStatus_driver_blind_spec. vm_compute. discriminate.
Qed.

(** C6 at a failing input: UpdateStatus moves order 1 from Requested
    straight to Delivered, and order 2 from En-route back to Requested;
    neither is an edge of the lifecycle. *)
Theorem update_status_leaves_lifecycle :
  let st := sample_store [sample_order 1 "Requested" None;
                          sample_order 2 "En-route" (Some 7)] in
  (statuses_of st 1 = ["Requested"]
   /\ statuses_of (fst (driver_update_status st t1 1 (Some 5) (Some "Delivered"))) 1
      = ["Delivered"]
   /\ ~ lifecycle_edge "Requested" "Delivered")
  /\ (statuses_of st 2 = ["En-route"]
      /\ statuses_of (fst (driver_update_status st t1 2 (Some 5) (Some "Requested"))) 2
         = ["Requested"]
      /\ ~ lifecycle_edge "En-route" "Requested").
Proof.
  repeat split; try reflexivity;
    intros [[? ?]|[[? ?]|[[? ?]|[? ?]]]]; congruence.
Qed.

Lemma driver_claim_table_step (st : store) (now : timestamp) (order_id : Z)
    (driver_id : option Z) :
  table_step (tbl_transport_requests st)
    (tbl_transport_requests (fst (driver_claim st now order_id driver_id))).
Proof.
  unfold driver_claim.
  destruct driver_id as [d|]; [|apply ts_same].
  destruct (negb (Py.truthy_int (Some d))); [apply ts_same|].
  destruct (driver_has_active_order st d) eqn:Hact; [apply ts_same|].
  destruct (select_order st order_id) as [o|] eqn:Ho; [|apply ts_same].
  destruct (tr_status o =? "Requested")%string eqn:Hreq; [|apply ts_same].
  simpl. apply ts_claim with (o := o).
  - unfold driver_has_active_order in Hact.
    rewrite Z.gtb_ltb in Hact. apply Z.ltb_ge in Hact. lia.
  - exact Ho.
  - apply String.eqb_eq, Hreq.
Qed.

Lemma driver_update_status_table_step (st : store) (now : timestamp)
    (order_id : Z) (driver_id : option Z) (new_status : option string) :
  table_step (tbl_transport_requests st)
    (tbl_transport_requests
       (fst (driver_update_status st now order_id driver_id new_status))).
Proof.
  destruct (driver_update_status_cases st now order_id driver_id new_status)
    as [-> | [s [o [_ [Ho [Hdel [Hal ->]]]]]]].
  - apply ts_same.
  - simpl. apply ts_update with (o := o); assumption.
Qed.

Lemma request_transport_table_step (id_of_text : string -> option Z) (st : store)
    (now : timestamp) (meth : http_method) (listing_id : Z) (d : transport_form) :
  table_step (tbl_transport_requests st)
    (tbl_transport_requests
       (fst (request_transport id_of_text st now meth listing_id d))).
Proof.
  unfold request_transport, insert_request.
  destruct (select_listing st listing_id) as [l|]; [|apply ts_same].
  destruct (negb (l_availability_status l =? "Available")%string); [apply ts_same|].
  destruct meth; [apply ts_same|].
  destruct (negb (Py.truthy_str (f_hospital_id d))); [apply ts_same|].
  destruct (select_hospital id_of_text st (Py.get (f_hospital_id d) ""));
    [|apply ts_same].
  match goal with |- context [if ?c then _ else _] => destruct c end;
    [apply ts_same|].
  cbn [fst tbl_transport_requests set_listings set_requests].
  apply ts_insert; reflexivity.
Qed.

Lemma emergency_transport_table_step (st : store) (meth : http_method)
    (d : emergency_form) :
  table_step (tbl_transport_requests st)
    (tbl_transport_requests (fst (emergency_transport st meth d))).
Proof.
  unfold emergency_transport.
  destruct meth; [apply ts_same|].
  destruct (e_hospital d), (e_organ_type d), (e_origin d), (e_destination d);
    apply ts_same.
Qed.

Lemma step_table_step (id_of_text : string -> option Z) (st : store)
    (now : timestamp) (op : operation) :
  table_step (tbl_transport_requests st)
    (tbl_transport_requests (step id_of_text st now op)).
Proof.
  destruct op; unfold step, handle.
  - apply request_transport_table_step.
  - apply emergency_transport_table_step.
  - apply driver_claim_table_step.
  - apply driver_update_status_table_step.
Qed.

(** ** Invariants of the table of requests *)

Lemma fold_max_upper (i : Z) (rest : list Z) (x : Z) :
  In x (i :: rest) -> x <= fold_right Z.max i rest.
Proof.
  induction rest as [|y rest IH]; simpl.
  - intros [<-|[]]. lia.
  - intros [<-|[<-|H]].
    + assert (i <= fold_right Z.max i rest) by (apply IH; left; reflexivity). lia.
    + lia.
    + assert (x <= fold_right Z.max i rest) by (apply IH; right; exact H). lia.
Qed.

Lemma next_rowid_fresh (ids : list Z) : ~ In (next_rowid ids) ids.
Proof.
  destruct ids as [|i rest]; [intros []|].
  intros H. apply fold_max_upper in H. unfold next_rowid in H. lia.
Qed.

Lemma map_id_update_where (p : transport_request -> bool)
    (f : transport_request -> transport_request) (rows : list transport_request) :
  (forall r, tr_id (f r) = tr_id r) ->
  map tr_id (update_where p f rows) = map tr_id rows.
Proof.
  intros Hid. unfold update_where. rewrite map_map. apply map_ext.
  intros r. destruct (p r); [apply Hid | reflexivity].
Qed.

Lemma table_step_ids (rows rows' : list transport_request) :
  table_step rows rows' ->
  NoDup (map tr_id rows) -> NoDup (map tr_id rows').
Proof.
  intros Hstep Hnd. destruct Hstep as [|row _ _ Hid| |].
  - exact Hnd.
  - rewrite map_app. simpl.
    apply (Permutation_NoDup (Permutation_cons_append _ _)).
    constructor; [|exact Hnd]. rewrite Hid. apply next_rowid_fresh.
  - rewrite map_id_update_where by reflexivity. exact Hnd.
  - rewrite map_id_update_where by (intros; apply update_row_id). exact Hnd.
Qed.

Lemma Forall_update_where {A : Type} (P : A -> Prop) (p : A -> bool) (f : A -> A)
    (rows : list A) :
  (forall r, In r rows -> p r = true -> P (f r)) ->
  Forall P rows -> Forall P (update_where p f rows).
Proof.
  intros Hf HP. unfold update_where. apply Forall_forall.
  intros x Hx. apply in_map_iff in Hx as [r [<- Hr]].
  destruct (p r) eqn:E; [apply Hf; assumption|].
  rewrite Forall_forall in HP. apply HP, Hr.
Qed.

Lemma taken_statuses (s : string) :
  sql_in s allowed_statuses = true -> s <> "Requested" ->
  s = "Assigned" \/ s = "En-route" \/ s = "Delivered".
Proof.
  unfold sql_in, allowed_statuses, existsb.
  rewrite !orb_true_iff, !String.eqb_eq. intuition discriminate.
Qed.

Lemma table_step_taken (rows rows' : list transport_request) :
  table_step rows rows' ->
  Forall (fun r => tr_driver_id r <> None ->
                   tr_status r = "Assigned" \/ tr_status r = "En-route"
                   \/ tr_status r = "Delivered") rows ->
  Forall (fun r => tr_driver_id r <> None ->
                   tr_status r = "Assigned" \/ tr_status r = "En-route"
                   \/ tr_status r = "Delivered") rows'.
Proof.
  intros Hstep HP. destruct Hstep as [|row Hdrv _ _| |order_id s now o _ _ Hal].
  - exact HP.
  - apply Forall_app. split; [exact HP|].
    constructor; [|constructor]. intros H. contradiction.
  - apply Forall_update_where; [|exact HP].
    intros r _ _ _. left. reflexivity.
  - apply Forall_update_where; [|exact HP].
    intros r _ _. unfold update_row.
    destruct (s =? "Requested")%string eqn:E; simpl.
    + intros H. contradiction.
    + intros _. apply String.eqb_neq in E. apply taken_statuses; assumption.
Qed.

Lemma update_where_none {A : Type} (p : A -> bool) (f : A -> A) (rows : list A) :
  (forall r, In r rows -> p r = false) -> update_where p f rows = rows.
Proof.
  induction rows as [|r rows IH]; intros H; simpl; [reflexivity|].
  rewrite (H r) by (left; reflexivity).
  f_equal. apply IH. intros x Hx. apply H. right; exact Hx.
Qed.

(** Rewriting rows cannot add to a count when no rewritten row enters it. *)
Lemma filter_update_where_le {A : Type} (q p : A -> bool) (f : A -> A)
    (rows : list A) :
  (forall r, In r rows -> p r = true -> q (f r) = true -> q r = true) ->
  (List.length (filter q (update_where p f rows)) <= List.length (filter q rows))%nat.
Proof.
  induction rows as [|r rows IH]; intros H; simpl; [lia|].
  assert (IH' := IH (fun x Hx => H x (or_intror Hx))).
  destruct (p r) eqn:Hp.
  - destruct (q (f r)) eqn:Hq.
    + rewrite (H r (or_introl eq_refl) Hp Hq). simpl. lia.
    + destruct (q r); simpl; lia.
  - destruct (q r); simpl; lia.
Qed.

(** Rewriting the rows of one id adds at most one to a count when ids are
    unique. *)
Lemma filter_update_where_unique (q : transport_request -> bool) (order_id : Z)
    (f : transport_request -> transport_request) (rows : list transport_request) :
  NoDup (map tr_id rows) ->
  (List.length (filter q (update_where (fun r => (tr_id r =? order_id)%Z) f rows))
   <= S (List.length (filter q rows)))%nat.
Proof.
  induction rows as [|r rows IH]; intros Hnd; simpl; [lia|].
  inversion Hnd as [|? ? Hnotin Hnd']; subst.
  destruct (tr_id r =? order_id) eqn:Hid.
  - apply Z.eqb_eq in Hid.
    rewrite update_where_none.
    + destruct (q (f r)), (q r); simpl; lia.
    + intros x Hx. apply Z.eqb_neq. intros Hx'. apply Hnotin.
      rewrite Hid, <- Hx'. apply in_map, Hx.
  - specialize (IH Hnd'). destruct (q r); simpl; lia.
Qed.

Lemma find_unique (order_id : Z) (rows : list transport_request)
    (o r : transport_request) :
  NoDup (map tr_id rows) ->
  find (fun x => tr_id x =? order_id) rows = Some o ->
  In r rows -> tr_id r = order_id -> r = o.
Proof.
  induction rows as [|x rows IH]; intros Hnd Hfind Hin Hid; [contradiction|].
  inversion Hnd as [|? ? Hnotin Hnd']; subst. simpl in Hfind.
  destruct (tr_id x =? tr_id r) eqn:E.
  - injection Hfind as <-. apply Z.eqb_eq in E.
    destruct Hin as [->|Hin]; [reflexivity|].
    exfalso. apply Hnotin. rewrite E. apply in_map, Hin.
  - destruct Hin as [->|Hin]; [rewrite Z.eqb_refl in E; discriminate|].
    apply IH; auto.
Qed.

Lemma table_step_at_most_one (rows rows' : list transport_request) :
  table_step rows rows' ->
  NoDup (map tr_id rows) ->
  Forall (fun r => tr_driver_id r <> None ->
                   tr_status r = "Assigned" \/ tr_status r = "En-route"
                   \/ tr_status r = "Delivered") rows ->
  (forall d, (List.length (active_orders_of d rows) <= 1)%nat) ->
  forall d, (List.length (active_orders_of d rows') <= 1)%nat.
Proof.
  intros Hstep Hnd HP Hone d.
  destruct Hstep as [|row Hdrv _ _|order_id d' now o Hnone Hfind Hreq
                     |order_id s now o Hfind Hdel Hal].
  - apply Hone.
  - unfold active_orders_of. rewrite filter_app, length_app. simpl.
    rewrite Hdrv. simpl. specialize (Hone d). unfold active_orders_of in Hone. lia.
  - destruct (Z.eq_dec d' d) as [->|Hne].
    + unfold active_orders_of in *.
      etransitivity; [apply filter_update_where_unique, Hnd|]. lia.
    + etransitivity; [|apply (Hone d)].
      apply filter_update_where_le. intros r _ _. simpl.
      destruct (d' =? d) eqn:E; [apply Z.eqb_eq in E; contradiction|].
      discriminate.
  - etransitivity; [|apply (Hone d)].
    apply filter_update_where_le. intros r Hin Hid Hq.
    apply Z.eqb_eq in Hid.
    assert (r = o) by (eapply find_unique; eassumption). subst r.
    unfold update_row in Hq.
    destruct (s =? "Requested")%string; [discriminate Hq|].
    simpl in Hq. apply andb_true_iff in Hq as [Hd _].
    apply andb_true_iff. split; [exact Hd|].
    apply is_active_iff.
    rewrite Forall_forall in HP.
    destruct (HP o Hin) as [H|[H|H]]; [|tauto|tauto|contradiction].
    apply sql_eq_int_iff in Hd. rewrite Hd. discriminate.
Qed.

(** The three facts about the table that every sequence of operations
    keeps together. *)
Lemma run_keeps_invariants (id_of_text : string -> option Z)
    (ops : list (timestamp * operation)) (st : store) :
  unique_ids st -> driver_implies_taken st -> at_most_one_active st ->
  unique_ids (run id_of_text st ops)
  /\ driver_implies_taken (run id_of_text st ops)
  /\ at_most_one_active (run id_of_text st ops).
Proof.
  revert st. induction ops as [|[now op] ops IH]; intros st Hnd HP Hone; simpl.
  - repeat split; assumption.
  - pose proof (step_table_step id_of_text st now op) as Hstep.
    apply IH.
    + apply (table_step_ids _ _ Hstep Hnd).
    + apply (table_step_taken _ _ Hstep HP).
    + intros d. apply (table_step_at_most_one _ _ Hstep Hnd HP Hone d).
Qed.

(** Starting from an empty table of requests, no driver ever has more than
    one active request. *)
Lemma single_active_from_empty (id_of_text : string -> option Z)
    (hs : list hospital) (ls : list listing) (ops : list (timestamp * operation)) :
  at_most_one_active (run id_of_text (mkStore hs ls []) ops).
Proof.
  apply run_keeps_invariants.
  - constructor.
  - constructor.
  - intros d. simpl. lia.
Qed.

(** C2, as amended: from a state where request ids are unique, every
    request that carries a driver is Assigned, En-route or Delivered, and no
    driver has more than one active request, every sequence of CreateRequest,
    CreateEmergencyRequest, ClaimOrder and UpdateStatus leaves every driver
    with at most one active request. *)
Theorem single_active_order_preserved (id_of_text : string -> option Z)
    (st : store) (ops : list (timestamp * operation)) :
  unique_ids st -> driver_implies_taken st -> at_most_one_active st ->
  at_most_one_active (run id_of_text st ops).
Proof.
  intros Hnd HP Hone.
  apply (run_keeps_invariants id_of_text ops st Hnd HP Hone).
Qed.

Lemma sample_no_active (d : Z) (rows : list transport_request) :
  Forall (fun r => is_active r = false) rows ->
  (List.length (active_orders_of d rows) <= 1)%nat.
Proof.
  intros H. unfold active_orders_of.
  induction H as [|r rows Hr _ IH]; simpl; [lia|].
  rewrite Hr, andb_false_r. exact IH.
Qed.

Lemma single_active_order_preserved_witness :
  let st := sample_store [sample_order 1 "Requested" None;
                          sample_order 2 "Requested" None] in
  let ops := [(t1, ClaimOrder 1 (Some 7)); (t2, ClaimOrder 2 (Some 7))] in
  unique_ids st /\ driver_implies_taken st /\ at_most_one_active st
  /\ at_most_one_active (run decimal_id st ops).
Proof.
  intros st ops.
  assert (Hnd : unique_ids st).
  { unfold unique_ids; simpl. repeat constructor; simpl; intuition discriminate. }
  assert (HP : driver_implies_taken st).
  { unfold driver_implies_taken. apply Forall_forall.
    intros r [<-|[<-|[]]] Hd; simpl in Hd; congruence. }
  assert (Hone : at_most_one_active st).
  { intros d. apply sample_no_active. repeat constructor. }
  repeat split; try assumption.
  apply (single_active_order_preserved decimal_id st ops Hnd HP Hone).
Defined.

(** C2, as stated, fails from a state that satisfies the bound: order 1 is
    Requested but still carries driver 7; driver 7 claims order 2, then
    order 1 is moved to Assigned and driver 7 has two active orders. *)
Lemma single_active_not_inductive :
  let st := sample_store [sample_order 1 "Requested" (Some 7);
                          sample_order 2 "Requested" None] in
  let ops := [(t1, ClaimOrder 2 (Some 7));
              (t2, UpdateStatus 1 (Some 7) (Some "Assigned"))] in
  unique_ids st /\ ~ single_active_spec decimal_id st ops.
Proof.
  intros st ops. split.
  - unfold unique_ids; simpl. repeat constructor; simpl; intuition discriminate.
  - intros H. unfold single_active_spec in H.
    assert (Hone : at_most_one_active st).
    { intros d. apply sample_no_active. repeat constructor. }
    specialize (H Hone 7). vm_compute in H. lia.
Qed.

(** C3, as amended: a request that carries a driver is Assigned, En-route
    or Delivered, and every operation (CreateRequest, CreateEmergencyRequest,
    ClaimOrder, UpdateStatus) keeps it so. *)
Theorem driver_implies_taken_preserved (id_of_text : string -> option Z)
    (st : store) (now : timestamp) (op : operation) :
  driver_implies_taken st -> driver_implies_taken (step id_of_text st now op).
Proof.
  unfold driver_implies_taken. intros HP.
  apply (table_step_taken _ _ (step_table_step id_of_text st now op) HP).
Qed.

Lemma driver_implies_taken_preserved_witness :
  let st := sample_store [sample_order 1 "Assigned" (Some 7)] in
  let op := UpdateStatus 1 (Some 7) (Some "Delivered") in
  driver_implies_taken st /\ driver_implies_taken (step decimal_id st t1 op).
Proof.
  intros st op.
  assert (HP : driver_implies_taken st).
  { unfold driver_implies_taken. apply Forall_forall.
    intros r [<-|[]] _. left; reflexivity. }
  split; [exact HP|].
  apply (driver_implies_taken_preserved decimal_id st t1 op HP).
Defined.

(** C3, as stated, fails when an Assigned order is delivered: the row keeps
    its driver while its status leaves Assigned and En-route. *)
Lemma delivered_order_keeps_driver :
  let st := sample_store [sample_order 1 "Assigned" (Some 7)] in
  ~ driver_iff_active_spec decimal_id st t1
      (UpdateStatus 1 (Some 7) (Some "Delivered")).
Proof.
  intros st H. unfold driver_iff_active_spec in H.
  assert (Hst : driver_iff_active st).
  { unfold driver_iff_active. apply Forall_forall.
    intros r [<-|[]]. simpl. split; [intros _; left; reflexivity | discriminate]. }
  specialize (H Hst). vm_compute in H.
  inversion H as [|? ? [Hr _] _]; subst.
  destruct Hr as [Hr|Hr]; [discriminate | discriminate Hr | discriminate Hr].
Qed.

(** ** ORDER BY *)

Lemma string_leb_trans (a b c : string) :
  String.leb a b = true -> String.leb b c = true -> String.leb a c = true.
Proof.
  unfold String.leb. revert b c.
  induction a as [|x a IH]; intros [|y b] [|z c]; simpl; try congruence.
  unfold Ascii.compare.
  destruct (N.compare_spec (N_of_ascii x) (N_of_ascii y)) as [Hxy|Hxy|Hxy];
    destruct (N.compare_spec (N_of_ascii y) (N_of_ascii z)) as [Hyz|Hyz|Hyz];
    destruct (N.compare_spec (N_of_ascii x) (N_of_ascii z)) as [Hxz|Hxz|Hxz];
    try congruence; try lia.
  apply IH.
Qed.

Section OrderByFacts.

Context {A : Type}.
Variable leb : A -> A -> bool.
Hypothesis leb_total : forall a b, leb a b = true \/ leb b a = true.
Hypothesis leb_trans : forall a b c, leb a b = true -> leb b c = true -> leb a c = true.

Lemma insert_row_perm (x : A) (l : list A) :
  Permutation (insert_row leb x l) (x :: l).
Proof.
  induction l as [|y l IH]; simpl; [apply Permutation_refl|].
  destruct (leb x y); [apply Permutation_refl|].
  etransitivity; [apply perm_skip, IH | apply perm_swap].
Qed.

Lemma order_by_perm (l : list A) : Permutation (order_by leb l) l.
Proof.
  induction l as [|x l IH]; simpl; [constructor|].
  etransitivity; [apply insert_row_perm | apply perm_skip, IH].
Qed.

Lemma insert_row_sorted (x : A) (l : list A) :
  StronglySorted (fun a b => leb a b = true) l ->
  StronglySorted (fun a b => leb a b = true) (insert_row leb x l).
Proof.
  induction 1 as [|y l Hs IH Hall]; simpl.
  - constructor; constructor.
  - destruct (leb x y) eqn:E.
    + constructor; [constructor; assumption|].
      constructor; [exact E|].
      apply Forall_forall. intros z Hz.
      rewrite Forall_forall in Hall. eapply leb_trans; [exact E | apply Hall, Hz].
    + constructor; [exact IH|].
      apply Forall_forall. intros z Hz.
      apply (Permutation_in _ (insert_row_perm x l)) in Hz.
      destruct Hz as [<-|Hz].
      * destruct (leb_total x y) as [H|H]; [congruence | exact H].
      * rewrite Forall_forall in Hall. apply Hall, Hz.
Qed.

Lemma order_by_sorted (l : list A) :
  StronglySorted (fun a b => leb a b = true) (order_by leb l).
Proof.
  induction l as [|x l IH]; simpl; [constructor|].
  apply insert_row_sorted, IH.
Qed.

End OrderByFacts.








(** ** CreateRequest *)

Lemma find_mark_unavailable (listing_id : Z) (ls : list listing) :
  find (fun l => l_id l =? listing_id)
    (update_where (fun l => l_id l =? listing_id) mark_unavailable ls)
  = option_map mark_unavailable (find (fun l => l_id l =? listing_id) ls).
Proof.
  induction ls as [|l ls IH]; simpl; [reflexivity|].
  destruct (l_id l =? listing_id) eqn:E; simpl; rewrite E; [reflexivity | exact IH].
Qed.

Lemma select_listing_id (st : store) (listing_id : Z) (l : listing) :
  select_listing st listing_id = Some l -> l_id l = listing_id.
Proof.
  unfold select_listing. intros H. apply find_some in H as [_ H].
  apply Z.eqb_eq, H.
Qed.







(** ** The scenarios of the specification, run on the model *)

Example strip_address : Py.strip "  123 Main St  " = "123 Main St".
Proof. reflexivity. Qed.

Example strip_blank : Py.strip "   " = "".
Proof. reflexivity. Qed.

Example like_substring : sql_like "%kid%" "kidney" = true.
Proof. reflexivity. Qed.

Example like_wildcards :
  sql_like "%d_e%" "kidney" = true /\ sql_like "%d_y%" "kidney" = false
  /\ sql_like "%KID%" "kidney" = true.
Proof. repeat split; reflexivity. Qed.

Example decimal_id_two : decimal_id "2" = Some 2 /\ decimal_id "" = None.
Proof. split; reflexivity. Qed.

Example catalog_all :
  map l_id (organ_listings catalog_sample None None None) = [4; 3; 2; 1].
Proof. reflexivity. Qed.

Example catalog_kidney_available :
  map l_id (organ_listings catalog_sample (Some " KID ") (Some "Kidney") (Some "Available"))
  = [1].
Proof. reflexivity. Qed.

Example available_sample :
  map (fun j => tr_id (fst j)) (available_orders catalog_sample) = [3; 2; 1].
Proof. reflexivity. Qed.

(** Section 8 of the specification: the request against listing 1 is
    created with origin "H1 (Dallas, TX)", the listing becomes Unavailable
    and a second POST is answered 400. *)
Example scenario_request :
  let st1 := step decimal_id (sample_store []) t1
               (CreateRequest 1 (sample_form "2" "123 Main St")) in
  map (fun r => (tr_status r, tr_origin r)) (tbl_transport_requests st1)
  = [("Requested", "H1 (Dallas, TX)")]
  /\ map l_availability_status (tbl_organ_listings st1) = ["Unavailable"]
  /\ http_code (snd (request_transport decimal_id st1 t2 POST 1
                       (sample_form "2" "123 Main St"))) = 400.
Proof. repeat split; reflexivity. Qed.

(** Section 8: driver 7 claims order 1, cannot claim order 2, then drives
    order 1 to Delivered, after which it cannot be modified. *)
Example scenario_driver :
  let st0 := sample_store [sample_order 1 "Requested" None;
                           sample_order 2 "Requested" None] in
  let st1 := step decimal_id st0 t1 (ClaimOrder 1 (Some 7)) in
  let st2 := run decimal_id st1
               [(t2, UpdateStatus 1 (Some 7) (Some "En-route"));
                (t2, UpdateStatus 1 (Some 7) (Some "Delivered"))] in
  map (fun r => (tr_status r, tr_driver_id r)) (tbl_transport_requests st1)
  = [("Assigned", Some 7); ("Requested", None)]
  /\ snd (driver_claim st1 t2 2 (Some 7))
     = Body "Driver already has an active order" 400
  /\ map tr_status (tbl_transport_requests st2) = ["Delivered"; "Requested"]
  /\ snd (driver_update_status st2 t2 1 (Some 7) (Some "Assigned"))
     = Body "Delivered orders cannot be modified" 400.
Proof. repeat split; reflexivity. Qed.

(** ** What the lifecycle operations leave alone *)

Ltac split_handler :=
  repeat match goal with
         | |- context [match ?c with Some _ => _ | None => _ end] => destruct c
         | |- context [if ?c then _ else _] => destruct c
         | |- context [match ?m with GET => _ | POST => _ end] => destruct m
         end.

Lemma Forall2_same {A : Type} (R : A -> A -> Prop) (l : list A) :
  (forall x, R x x) -> Forall2 R l l.
Proof. intros H. induction l; constructor; auto. Qed.

Lemma request_transport_outcome (id_of_text : string -> option Z) (st : store)
    (now : timestamp) (meth : http_method) (listing_id : Z) (d : transport_form) :
  (fst (request_transport id_of_text st now meth listing_id d) = st
   /\ forall e a, snd (request_transport id_of_text st now meth listing_id d)
                  <> Redirect e a)
  \/ exists l h,
       meth = POST
       /\ select_listing st listing_id = Some l
       /\ l_availability_status l = "Available"
       /\ select_hospital id_of_text st (Py.get (f_hospital_id d) "") = Some h
       /\ request_transport id_of_text st now meth listing_id d
          = (mkStore (tbl_hospitals st)
               (update_where (fun x => l_id x =? l_id l) mark_unavailable
                  (tbl_organ_listings st))
               (tbl_transport_requests st
                ++ [mkRequest (next_rowid (map tr_id (tbl_transport_requests st)))
                      (Some (l_id l)) (h_name h) (l_organ_type l) (origin_of l)
                      (Py.strip (Py.get (f_destination d) ""))
                      (Py.strip (Py.get (f_contact_phone d) ""))
                      (Py.strip (Py.get (f_notes d) ""))
                      (l_priority_status l) "Requested" None now now]),
             Redirect "order_confirmation"
               (Some (next_rowid (map tr_id (tbl_transport_requests st))))).
Proof.
  unfold request_transport, insert_request.
  destruct (select_listing st listing_id) as [l|] eqn:Hl;
    [|left; split; [reflexivity | discriminate]].
  destruct (l_availability_status l =? "Available")%string eqn:Hav; cbn [negb];
    [|left; split; [reflexivity | discriminate]].
  destruct meth; [left; split; [reflexivity | discriminate]|].
  destruct (negb (Py.truthy_str (f_hospital_id d)));
    [left; split; [reflexivity | discriminate]|].
  destruct (select_hospital id_of_text st (Py.get (f_hospital_id d) "")) as [h|] eqn:Hh;
    [|left; split; [reflexivity | discriminate]].
  match goal with |- context [if ?c then _ else _] => destruct c end;
    [left; split; [reflexivity | discriminate]|].
  right. exists l, h. apply String.eqb_eq in Hav.
  repeat (split; [reflexivity || assumption|]). reflexivity.
Qed.

Lemma driver_claim_outcome (st : store) (now : timestamp) (order_id : Z)
    (driver_id : option Z) :
  (fst (driver_claim st now order_id driver_id) = st
   /\ forall e a, snd (driver_claim st now order_id driver_id) <> Redirect e a)
  \/ exists d o,
       driver_id = Some d /\ d <> 0
       /\ driver_has_active_order st d = false
       /\ select_order st order_id = Some o /\ tr_status o = "Requested"
       /\ driver_claim st now order_id driver_id
          = (set_requests st
               (update_where (fun r => tr_id r =? order_id) (claim_row d now)
                  (tbl_transport_requests st)),
             Redirect "driver_portal" (Some d)).
Proof.
  unfold driver_claim.
  destruct driver_id as [d|]; [|left; split; [reflexivity | discriminate]].
  unfold Py.truthy_int.
  destruct (d =? 0) eqn:Hd; cbn [negb];
    [left; split; [reflexivity | discriminate]|].
  destruct (driver_has_active_order st d) eqn:Hact;
    [left; split; [reflexivity | discriminate]|].
  destruct (select_order st order_id) as [o|] eqn:Ho;
    [|left; split; [reflexivity | discriminate]].
  destruct (tr_status o =? "Requested")%string eqn:Hreq; cbn [negb];
    [|left; split; [reflexivity | discriminate]].
  right. exists d, o. apply Z.eqb_neq in Hd. apply String.eqb_eq in Hreq.
  repeat (split; [reflexivity || assumption|]). reflexivity.
Qed.

Lemma driver_update_status_outcome (st : store) (now : timestamp) (order_id : Z)
    (driver_id : option Z) (new_status : option string) :
  (fst (driver_update_status st now order_id driver_id new_status) = st
   /\ forall e a, snd (driver_update_status st now order_id driver_id new_status)
                  <> Redirect e a)
  \/ exists s o,
       new_status = Some s /\ select_order st order_id = Some o
       /\ tr_status o <> "Delivered" /\ sql_in s allowed_statuses = true
       /\ driver_update_status st now order_id driver_id new_status
          = (set_requests st
               (update_where (fun r => tr_id r =? order_id) (update_row s now)
                  (tbl_transport_requests st)),
             Redirect "driver_portal" driver_id).
Proof.
  destruct (driver_update_status st now order_id driver_id new_status)
    as [st' resp] eqn:E.
  destruct resp as [text code|code descr|template code|endpoint arg].
  4: { right. pose proof E as E'. apply driver_update_status_accepted in E'.
       destruct E' as [s [o [Hs [_ [_ [Ho [Hdel [Hal ->]]]]]]]].
       exists s, o. repeat (split; [assumption|]).
       revert E. unfold driver_update_status. split_handler; congruence. }
  all: left; split; [|discriminate];
    revert E; unfold driver_update_status; split_handler;
    intros E; simpl; congruence.
Qed.

(** X1: an operation that does not answer with its redirect has changed
    nothing. *)
Theorem refused_operations_change_nothing (id_of_text : string -> option Z)
    (st : store) (now : timestamp) (op : operation) :
  fst (handle id_of_text st now op) = st
  \/ exists endpoint arg,
       snd (handle id_of_text st now op) = Redirect endpoint arg.
Proof.
  destruct op as [listing_id d|d|order_id driver_id|order_id driver_id new_status];
    unfold handle.
  - destruct (request_transport_outcome id_of_text st now POST listing_id d)
      as [[H _]|[l [h [_ [_ [_ [_ H]]]]]]]; [left; exact H|].
    right. rewrite H. do 2 eexists. reflexivity.
  - left. unfold emergency_transport. split_handler; reflexivity.
  - destruct (driver_claim_outcome st now order_id driver_id)
      as [[H _]|[d [o [_ [_ [_ [_ [_ H]]]]]]]]; [left; exact H|].
    right. rewrite H. do 2 eexists. reflexivity.
  - destruct (driver_update_status_outcome st now order_id driver_id new_status)
      as [[H _]|[s [o [_ [_ [_ [_ H]]]]]]]; [left; exact H|].
    right. rewrite H. do 2 eexists. reflexivity.
Qed.

Lemma step_listings (id_of_text : string -> option Z) (st : store)
    (now : timestamp) (op : operation) :
  tbl_hospitals (step id_of_text st now op) = tbl_hospitals st
  /\ (tbl_organ_listings (step id_of_text st now op) = tbl_organ_listings st
      \/ exists listing_id,
           tbl_organ_listings (step id_of_text st now op)
           = update_where (fun x => l_id x =? listing_id) mark_unavailable
               (tbl_organ_listings st)).
Proof.
  destruct op as [listing_id d|d|order_id driver_id|order_id driver_id new_status];
    unfold step, handle.
  - destruct (request_transport_outcome id_of_text st now POST listing_id d)
      as [[-> _]|[l [h [_ [_ [_ [_ ->]]]]]]]; [auto|].
    split; [reflexivity|]. right. exists (l_id l). reflexivity.
  - unfold emergency_transport. split_handler; auto.
  - destruct (driver_claim_outcome st now order_id driver_id)
      as [[-> _]|[d [o [_ [_ [_ [_ [_ ->]]]]]]]]; auto.
  - destruct (driver_update_status_outcome st now order_id driver_id new_status)
      as [[-> _]|[s [o [_ [_ [_ [_ ->]]]]]]]; auto.
Qed.

Lemma same_or_taken_refl (l : listing) : same_or_taken l l.
Proof. unfold same_or_taken. repeat split; auto. Qed.

Lemma same_or_taken_mark (l : listing) : same_or_taken l (mark_unavailable l).
Proof. unfold same_or_taken; simpl. repeat split; auto. Qed.

(** X2: no lifecycle operation touches the hospitals, and the only thing one
    does to a listing is to make it Unavailable. *)
Theorem operations_only_take_listings (id_of_text : string -> option Z)
    (st : store) (now : timestamp) (op : operation) :
  tbl_hospitals (step id_of_text st now op) = tbl_hospitals st
  /\ Forall2 same_or_taken (tbl_organ_listings st)
       (tbl_organ_listings (step id_of_text st now op)).
Proof.
  destruct (step_listings id_of_text st now op) as [Hh [->|[lid ->]]].
  - split; [exact Hh|]. apply Forall2_same, same_or_taken_refl.
  - split; [exact Hh|]. apply Forall2_update_where. intros l _.
    destruct (l_id l =? lid); [apply same_or_taken_mark | apply same_or_taken_refl].
Qed.

Lemma same_fixed_refl (r : transport_request) : same_fixed_columns r r.
Proof. unfold same_fixed_columns. repeat split. Qed.

(** X3: no lifecycle operation deletes a request or rewrites its id,
    listing_id, hospital, organ_type, origin, destination, contact_phone,
    notes, priority_status or created_at; an operation adds at most one
    request, and that one is Requested with no driver. *)
Theorem operations_keep_request_columns (id_of_text : string -> option Z)
    (st : store) (now : timestamp) (op : operation) :
  exists kept added,
    tbl_transport_requests (step id_of_text st now op) = kept ++ added
    /\ Forall2 same_fixed_columns (tbl_transport_requests st) kept
    /\ (List.length added <= 1)%nat
    /\ Forall (fun r => tr_status r = "Requested" /\ tr_driver_id r = None) added.
Proof.
  destruct (step_table_step id_of_text st now op)
    as [|row Hdrv Hst _|order_id d now' o _ _ _|order_id s now' o _ _ _].
  - exists (tbl_transport_requests st), [].
    rewrite app_nil_r. repeat split; auto.
    apply Forall2_same, same_fixed_refl.
  - exists (tbl_transport_requests st), [row]. repeat split; auto.
    apply Forall2_same, same_fixed_refl.
  - eexists _, []. rewrite app_nil_r. repeat split; auto.
    apply Forall2_update_where. intros r _.
    destruct (tr_id r =? order_id); [|apply same_fixed_refl].
    unfold same_fixed_columns; simpl. repeat split.
  - eexists _, []. rewrite app_nil_r. repeat split; auto.
    apply Forall2_update_where. intros r _.
    destruct (tr_id r =? order_id); [|apply same_fixed_refl].
    unfold same_fixed_columns, update_row.
    destruct (s =? "Requested")%string; simpl; repeat split.
Qed.

Lemma table_step_statuses (rows rows' : list transport_request) :
  table_step rows rows' ->
  Forall (fun r => sql_in (tr_status r) allowed_statuses = true) rows ->
  Forall (fun r => sql_in (tr_status r) allowed_statuses = true) rows'.
Proof.
  intros Hstep HP. destruct Hstep as [|row _ Hst _| |order_id s now o _ _ Hal].
  - exact HP.
  - apply Forall_app. split; [exact HP|].
    constructor; [rewrite Hst; reflexivity | constructor].
  - apply Forall_update_where; [|exact HP]. intros r _ _. reflexivity.
  - apply Forall_update_where; [|exact HP]. intros r _ _.
    unfold update_row. destruct (s =? "Requested")%string; exact Hal.
Qed.

(** X4: when every stored status is one of Requested, Assigned, En-route
    and Delivered, it is still so after any sequence of operations. *)
Theorem statuses_stay_allowed (id_of_text : string -> option Z)
    (ops : list (timestamp * operation)) (st : store) :
  statuses_allowed st -> statuses_allowed (run id_of_text st ops).
Proof.
  revert st. induction ops as [|[now op] ops IH]; intros st H; simpl; [exact H|].
  apply IH. unfold statuses_allowed in *.
  apply (table_step_statuses _ _ (step_table_step id_of_text st now op) H).
Qed.

Lemma statuses_stay_allowed_witness :
  let st := sample_store [sample_order 1 "Requested" None] in
  let ops := [(t1, ClaimOrder 1 (Some 7));
              (t2, UpdateStatus 1 (Some 7) (Some "Cancelled"))] in
  statuses_allowed st /\ statuses_allowed (run decimal_id st ops).
Proof.
  intros st ops.
  assert (H : statuses_allowed st) by (repeat constructor).
  split; [exact H | apply (statuses_stay_allowed decimal_id ops st H)].
Defined.

(** ** Listings once taken, requests once delivered *)

Lemma find_update_where_gen {A : Type} (p q : A -> bool) (f : A -> A)
    (rows : list A) :
  (forall r, p (f r) = p r) ->
  find p (update_where q f rows)
  = option_map (fun r => if q r then f r else r) (find p rows).
Proof.
  intros Hp. induction rows as [|r rows IH]; simpl; [reflexivity|].
  destruct (q r) eqn:Hq.
  - rewrite Hp. destruct (p r); [simpl; rewrite Hq; reflexivity | exact IH].
  - destruct (p r); [simpl; rewrite Hq; reflexivity | exact IH].
Qed.

Lemma step_select_listing (id_of_text : string -> option Z) (st : store)
    (now : timestamp) (op : operation) (listing_id : Z) (l : listing) :
  select_listing st listing_id = Some l ->
  select_listing (step id_of_text st now op) listing_id = Some l
  \/ select_listing (step id_of_text st now op) listing_id
     = Some (mark_unavailable l).
Proof.
  unfold select_listing. intros Hl.
  destruct (step_listings id_of_text st now op) as [_ [->|[lid ->]]].
  - left. exact Hl.
  - rewrite find_update_where_gen by reflexivity. rewrite Hl. simpl.
    destruct (l_id l =? lid); auto.
Qed.

Lemma run_listing_unavailable (id_of_text : string -> option Z)
    (ops : list (timestamp * operation)) (st : store) (listing_id : Z)
    (l : listing) :
  select_listing st listing_id = Some l ->
  l_availability_status l <> "Available" ->
  exists l', select_listing (run id_of_text st ops) listing_id = Some l'
             /\ l_availability_status l' <> "Available".
Proof.
  revert st l. induction ops as [|[now op] ops IH]; intros st l Hl Hav; simpl.
  - exists l. split; assumption.
  - destruct (step_select_listing id_of_text st now op listing_id l Hl) as [H|H].
    + apply (IH _ l H Hav).
    + apply (IH _ (mark_unavailable l) H). simpl. discriminate.
Qed.

Lemma request_transport_refused (id_of_text : string -> option Z) (st : store)
    (now : timestamp) (meth : http_method) (listing_id : Z) (d : transport_form)
    (l : listing) :
  select_listing st listing_id = Some l ->
  l_availability_status l <> "Available" ->
  request_transport id_of_text st now meth listing_id d
  = (st, Render "request_transport_unavailable.html" 400).
Proof.
  intros Hl Hav. unfold request_transport. rewrite Hl.
  apply String.eqb_neq in Hav. rewrite Hav. reflexivity.
Qed.

(** X5: a listing that is not Available stays so through every sequence of
    operations: a request against it is answered with the "unavailable"
    page and HTTP 400, by GET and by POST, and writes nothing. *)
Theorem unavailable_listing_stays_refused (id_of_text : string -> option Z)
    (st : store) (listing_id : Z) (l : listing)
    (ops : list (timestamp * operation)) (now : timestamp) (meth : http_method)
    (d : transport_form) :
  select_listing st listing_id = Some l ->
  l_availability_status l <> "Available" ->
  request_transport id_of_text (run id_of_text st ops) now meth listing_id d
  = (run id_of_text st ops, Render "request_transport_unavailable.html" 400).
Proof.
  intros Hl Hav.
  destruct (run_listing_unavailable id_of_text ops st listing_id l Hl Hav)
    as [l' [Hl' Hav']].
  apply (request_transport_refused _ _ _ _ _ _ l' Hl' Hav').
Qed.

Lemma unavailable_listing_stays_refused_witness :
  let st := catalog_sample in
  let ops := [(t1, ClaimOrder 1 (Some 7));
              (t2, UpdateStatus 1 (Some 7) (Some "Requested"))] in
  http_code (snd (request_transport decimal_id (run decimal_id st ops) t2 POST 3
                    (sample_form "1" "123 Main St"))) = 400.
Proof.
  intros st ops.
  rewrite (unavailable_listing_stays_refused decimal_id st 3
             (mkListing 3 2 "H2" "Kidney" "B+" "Critical" "Unavailable" "Austin" "TX"
                "2025-01-02 09:00:00")
             ops t2 POST (sample_form "1" "123 Main St")).
  - reflexivity.
  - reflexivity.
  - discriminate.
Defined.

(** X6: a listing can be requested once: after a request against it has
    been accepted, whatever operations follow, every further request
    against it is answered with the "unavailable" page and HTTP 400 and
    writes nothing. *)
Theorem listing_is_requested_once (id_of_text : string -> option Z)
    (st st1 : store) (now : timestamp) (listing_id : Z) (d : transport_form)
    (endpoint : string) (arg : option Z)
    (ops : list (timestamp * operation)) (now' : timestamp)
    (meth : http_method) (d' : transport_form) :
  request_transport id_of_text st now POST listing_id d
  = (st1, Redirect endpoint arg) ->
  request_transport id_of_text (run id_of_text st1 ops) now' meth listing_id d'
  = (run id_of_text st1 ops, Render "request_transport_unavailable.html" 400).
Proof.
  intros H.
  destruct (request_transport_outcome id_of_text st now POST listing_id d)
    as [[_ Hno]|[l [h [_ [Hl [_ [_ Hok]]]]]]].
  - rewrite H in Hno. exfalso. apply (Hno endpoint arg). reflexivity.
  - rewrite Hok in H. injection H as <- _ _.
    pose proof (select_listing_id st listing_id l Hl) as Hid.
    assert (Hl1 : select_listing
                    (mkStore (tbl_hospitals st)
                       (update_where (fun x => l_id x =? l_id l) mark_unavailable
                          (tbl_organ_listings st))
                       (tbl_transport_requests st
                        ++ [mkRequest
                              (next_rowid (map tr_id (tbl_transport_requests st)))
                              (Some (l_id l)) (h_name h) (l_organ_type l)
                              (origin_of l)
                              (Py.strip (Py.get (f_destination d) ""))
                              (Py.strip (Py.get (f_contact_phone d) ""))
                              (Py.strip (Py.get (f_notes d) ""))
                              (l_priority_status l) "Requested" None now now]))
                    listing_id
                  = Some (mark_unavailable l)).
    { unfold select_listing in *. cbn [tbl_organ_listings].
      rewrite Hid, find_mark_unavailable, Hl. reflexivity. }
    destruct (run_listing_unavailable id_of_text ops _ listing_id _ Hl1)
      as [l' [Hl' Hav']]; [simpl; discriminate|].
    apply (request_transport_refused _ _ _ _ _ _ l' Hl' Hav').
Qed.

Lemma listing_is_requested_once_witness :
  let st := sample_store [] in
  let st1 := fst (request_transport decimal_id st t1 POST 1
                    (sample_form "2" "123 Main St")) in
  http_code (snd (request_transport decimal_id st1 t2 POST 1
                    (sample_form "1" "9 Oak Ave"))) = 400.
Proof.
  intros st st1.
  pose proof (listing_is_requested_once decimal_id st st1 t1 1
                (sample_form "2" "123 Main St") "order_confirmation" (Some 1)
                [] t2 POST (sample_form "1" "9 Oak Ave") eq_refl) as H.
  cbn [run] in H. rewrite H. reflexivity.
Defined.

Lemma find_app_fresh {A : Type} (p : A -> bool) (rows : list A) (x : A) :
  find p rows = None -> p x = true -> find p (rows ++ [x]) = Some x.
Proof.
  induction rows as [|r rows IH]; simpl; intros Hnone Hx.
  - rewrite Hx. reflexivity.
  - destruct (p r); [discriminate | auto].
Qed.

Lemma select_order_fresh (st : store) :
  select_order st (next_rowid (map tr_id (tbl_transport_requests st))) = None.
Proof.
  unfold select_order.
  destruct (find _ _) as [r|] eqn:E; [|reflexivity].
  apply find_some in E as [Hin Hid]. apply Z.eqb_eq in Hid.
  exfalso. apply (next_rowid_fresh (map tr_id (tbl_transport_requests st))).
  rewrite <- Hid. apply in_map, Hin.
Qed.



Lemma filter_update_where_other {A : Type} (p q : A -> bool) (f : A -> A)
    (rows : list A) :
  (forall r, p (f r) = p r) -> (forall r, p r = true -> q r = false) ->
  filter p (update_where q f rows) = filter p rows.
Proof.
  intros Hp Hq. induction rows as [|r rows IH]; simpl; [reflexivity|].
  destruct (q r) eqn:E.
  - rewrite Hp. destruct (p r) eqn:Ep.
    + rewrite (Hq r Ep) in E. discriminate.
    + exact IH.
  - destruct (p r); [f_equal|]; exact IH.
Qed.

Lemma find_hd_filter {A : Type} (p : A -> bool) (l : list A) :
  find p l = hd_error (filter p l).
Proof.
  induction l as [|x l IH]; simpl; [reflexivity|].
  destruct (p x); [reflexivity | exact IH].
Qed.

Lemma other_id_untouched (order_id other : Z) (r : transport_request) :
  order_id <> other -> (tr_id r =? order_id) = true -> (tr_id r =? other) = false.
Proof.
  intros Hne H. apply Z.eqb_eq in H. apply Z.eqb_neq. congruence.
Qed.

Lemma table_step_delivered (rows rows' : list transport_request) (order_id : Z)
    (o : transport_request) :
  table_step rows rows' ->
  find (fun r => tr_id r =? order_id) rows = Some o ->
  tr_status o = "Delivered" ->
  filter (fun r => tr_id r =? order_id) rows'
  = filter (fun r => tr_id r =? order_id) rows.
Proof.
  intros Hstep Hfind Hdel.
  destruct Hstep as [|row _ _ Hid|oid d now o' _ Hfind' Hreq
                     |oid s now o' Hfind' Hnot _].
  - reflexivity.
  - rewrite filter_app. simpl.
    destruct (tr_id row =? order_id) eqn:E; [|apply app_nil_r].
    apply Z.eqb_eq in E. apply find_some in Hfind as [Hin Ho].
    apply Z.eqb_eq in Ho. exfalso.
    apply (next_rowid_fresh (map tr_id rows)).
    rewrite <- Hid, E, <- Ho. apply in_map, Hin.
  - destruct (Z.eq_dec oid order_id) as [->|Hne].
    + rewrite Hfind in Hfind'. injection Hfind' as <-. congruence.
    + apply filter_update_where_other; [reflexivity|].
      intros r. apply other_id_untouched. congruence.
  - destruct (Z.eq_dec oid order_id) as [->|Hne].
    + rewrite Hfind in Hfind'. injection Hfind' as <-. contradiction.
    + apply filter_update_where_other.
      * intros r. rewrite update_row_id. reflexivity.
      * intros r. apply other_id_untouched. congruence.
Qed.

(** X8: a Delivered order is final for every operation, not only for
    UpdateStatus: after any sequence of operations the rows with its id are
    exactly the ones before, and looking the order up gives the same row. *)
Theorem delivered_order_never_changes (id_of_text : string -> option Z)
    (ops : list (timestamp * operation)) (st : store) (order_id : Z)
    (o : transport_request) :
  select_order st order_id = Some o -> tr_status o = "Delivered" ->
  filter (fun r => tr_id r =? order_id)
    (tbl_transport_requests (run id_of_text st ops))
  = filter (fun r => tr_id r =? order_id) (tbl_transport_requests st)
  /\ select_order (run id_of_text st ops) order_id = Some o.
Proof.
  revert st. induction ops as [|[now op] ops IH]; intros st Ho Hdel; simpl.
  - split; [reflexivity | exact Ho].
  - pose proof (table_step_delivered _ _ order_id o
                  (step_table_step id_of_text st now op) Ho Hdel) as Hsame.
    assert (Ho' : select_order (step id_of_text st now op) order_id = Some o).
    { unfold select_order in *. rewrite find_hd_filter, Hsame, <- find_hd_filter.
      exact Ho. }
    destruct (IH _ Ho' Hdel) as [Hf Hs].
    split; [rewrite Hf; exact Hsame | exact Hs].
Qed.

Lemma delivered_order_never_changes_witness :
  let st := sample_store [sample_order 1 "Delivered" (Some 7);
                          sample_order 2 "Requested" None] in
  let ops := [(t1, ClaimOrder 1 (Some 5));
              (t1, UpdateStatus 1 (Some 7) (Some "Requested"));
              (t2, ClaimOrder 2 (Some 7))] in
  select_order (run decimal_id st ops) 1 = Some (sample_order 1 "Delivered" (Some 7)).
Proof.
  intros st ops.
  apply (delivered_order_never_changes decimal_id ops st 1
           (sample_order 1 "Delivered" (Some 7)) eq_refl eq_refl).
Defined.

(** ** Claims and the list of available orders *)

Lemma in_left_join_fst (ls : list listing) (r : transport_request)
    (j : joined_request) :
  In j (left_join_listing ls r) -> fst j = r.
Proof.
  unfold left_join_listing.
  destruct (filter _ ls) as [|l rest].
  - intros [<-|[]]. reflexivity.
  - intros H. apply in_map_iff in H as [x [<- _]]. reflexivity.
Qed.

Lemma left_join_inhabited (ls : list listing) (r : transport_request) :
  exists j, In j (left_join_listing ls r) /\ fst j = r.
Proof.
  unfold left_join_listing.
  destruct (filter _ ls) as [|l rest].
  - exists (r, None). split; [left; reflexivity | reflexivity].
  - exists (r, Some l). split; [left; reflexivity | reflexivity].
Qed.

Lemma in_joined_requests (st : store) (j : joined_request) :
  In j (joined_requests st) -> In (fst j) (tbl_transport_requests st).
Proof.
  unfold joined_requests. intros H.
  apply in_flat_map in H as [r [Hr Hj]].
  apply in_left_join_fst in Hj. rewrite Hj. exact Hr.
Qed.

Lemma joined_requests_cover (st : store) (r : transport_request) :
  In r (tbl_transport_requests st) ->
  exists j, In j (joined_requests st) /\ fst j = r.
Proof.
  intros Hr. destruct (left_join_inhabited (tbl_organ_listings st) r) as [j [Hj Hf]].
  exists j. split; [|exact Hf].
  unfold joined_requests. apply in_flat_map. exists r. split; assumption.
Qed.

Lemma in_order_by {A : Type} (leb : A -> A -> bool) (l : list A) (x : A) :
  In x (order_by leb l) <-> In x l.
Proof.
  split; apply Permutation_in;
    [apply order_by_perm | apply Permutation_sym, order_by_perm].
Qed.

Lemma in_available_orders (st : store) (j : joined_request) :
  In j (available_orders st)
  <-> In j (joined_requests st) /\ is_available j = true.
Proof.
  unfold available_orders. rewrite in_order_by, filter_In. reflexivity.
Qed.




(** X10: a driver whose claim was accepted has an active order from then
    on: any further claim by that driver, of any order, is answered "Driver
    already has an active order" and changes nothing. *)
Theorem claiming_driver_is_busy (st st1 : store) (now : timestamp) (order_id : Z)
    (driver_id : option Z) (endpoint : string) (arg : option Z) :
  driver_claim st now order_id driver_id = (st1, Redirect endpoint arg) ->
  exists d,
    driver_id = Some d
    /\ driver_has_active_order st1 d = true
    /\ forall now' order_id',
         driver_claim st1 now' order_id' (Some d)
         = (st1, Body "Driver already has an active order" 400).
Proof.
  intros H.
  destruct (driver_claim_outcome st now order_id driver_id)
    as [[_ Hno]|[d [o [Hd [Hnz [_ [Ho [_ Hok]]]]]]]].
  - rewrite H in Hno. exfalso. apply (Hno endpoint arg). reflexivity.
  - rewrite Hok in H. injection H as <- _ _.
    exists d. split; [exact Hd|].
    assert (Hact : driver_has_active_order
                     (set_requests st
                        (update_where (fun r => tr_id r =? order_id)
                           (claim_row d now) (tbl_transport_requests st))) d = true).
    { apply driver_has_active_order_iff. exists (claim_row d now o).
      split; [|split; [reflexivity | left; reflexivity]].
      cbn [set_requests tbl_transport_requests]. unfold update_where.
      apply in_map_iff. exists o. unfold select_order in Ho.
      apply find_some in Ho as [Hin Hid]. rewrite Hid. split; [reflexivity | exact Hin]. }
    split; [exact Hact|].
    intros now' order_id'. unfold driver_claim, Py.truthy_int.
    apply Z.eqb_neq in Hnz. rewrite Hnz, Hact. reflexivity.
Qed.

Lemma claiming_driver_is_busy_witness :
  let st := sample_store [sample_order 1 "Requested" None;
                          sample_order 2 "Requested" None] in
  let st1 := fst (driver_claim st t1 1 (Some 7)) in
  driver_claim st1 t2 2 (Some 7)
  = (st1, Body "Driver already has an active order" 400).
Proof.
  intros st st1.
  destruct (claiming_driver_is_busy st st1 t1 1 (Some 7) "driver_portal" (Some 7)
              eq_refl) as [d [Hd [_ H]]].
  injection Hd as <-. apply (H t2 2).
Defined.




(** X12: an order sent back to Requested by an accepted UpdateStatus is
    among the available orders again, without a driver. *)
Theorem reverted_order_is_available (st st1 : store) (now : timestamp)
    (order_id : Z) (driver_id : option Z) (endpoint : string) (arg : option Z) :
  driver_update_status st now order_id driver_id (Some "Requested")
  = (st1, Redirect endpoint arg) ->
  exists j, In j (available_orders st1)
            /\ tr_id (fst j) = order_id /\ tr_driver_id (fst j) = None.
Proof.
  intros H. apply driver_update_status_accepted in H.
  destruct H as [s [o [[= <-] [_ [_ [Ho [_ [_ ->]]]]]]]].
  unfold select_order in Ho. apply find_some in Ho as [Hin Hid].
  assert (Hrow : In (revert_row "Requested" now o)
                   (tbl_transport_requests
                      (set_requests st
                         (update_where (fun r => tr_id r =? order_id)
                            (update_row "Requested" now)
                            (tbl_transport_requests st))))).
  { cbn [set_requests tbl_transport_requests]. unfold update_where.
    apply in_map_iff. exists o. rewrite Hid. split; [reflexivity | exact Hin]. }
  destruct (joined_requests_cover _ _ Hrow) as [j [Hj Hf]].
  exists j. split; [|rewrite Hf; simpl; split; [apply Z.eqb_eq, Hid | reflexivity]].
  apply in_available_orders. split; [exact Hj|].
  unfold is_available. rewrite Hf. reflexivity.
Qed.

Lemma reverted_order_is_available_witness :
  let st := sample_store [sample_order 1 "Assigned" (Some 7)] in
  exists j,
    In j (available_orders
            (fst (driver_update_status st t1 1 (Some 7) (Some "Requested"))))
    /\ tr_id (fst j) = 1 /\ tr_driver_id (fst j) = None.
Proof.
  intros st.
  apply (reverted_order_is_available st
           (fst (driver_update_status st t1 1 (Some 7) (Some "Requested")))
           t1 1 (Some 7) "driver_portal" (Some 7) eq_refl).
Defined.


(** ** The catalog search *)

Lemma sql_like_percent (p s : string) :
  sql_like (String "%" p) s
  = sql_like p s
    || match s with
       | EmptyString => false
       | String _ s' => sql_like (String "%" p) s'
       end.
Proof. destruct s; reflexivity. Qed.

Lemma sql_like_percent_all (s : string) : sql_like "%" s = true.
Proof.
  induction s as [|x s IH]; [reflexivity|].
  rewrite sql_like_percent, IH. apply orb_true_r.
Qed.

Lemma sql_like_percent_skip (p s : string) :
  sql_like p s = true -> sql_like (String "%" p) s = true.
Proof. intros H. rewrite sql_like_percent, H. reflexivity. Qed.







(** X15: the search text is used as a LIKE pattern as it is: the text "%"
    selects what no text at all selects. *)
Theorem percent_search_selects_all (st : store) (typ availability : option string) :
  organ_listings st (Some "%") typ availability
  = organ_listings st None typ availability.
Proof.
  unfold organ_listings. f_equal. apply filter_ext. intros l.
  change (Py.lower (Py.strip (Py.get (Some "%") ""))) with "%".
  change (Py.lower (Py.strip (Py.get None ""))) with "".
  unfold catalog_where. f_equal.
  change (negb ("%" =? "")%string) with true.
  change (negb ("" =? "")%string) with false.
  cbv iota.
  change ("%" ++ "%" ++ "%")%string with (String "%" (String "%" "%")).
  rewrite (sql_like_percent_skip _ _ (sql_like_percent_skip _ _ (sql_like_percent_all _))).
  reflexivity.
Qed.

Lemma isspace_lower_char (c : ascii) : Py.isspace (Py.lower_char c) = Py.isspace c.
Proof. destruct c as [[] [] [] [] [] [] [] []]; reflexivity. Qed.

Lemma lower_char_idem (c : ascii) : Py.lower_char (Py.lower_char c) = Py.lower_char c.
Proof. destruct c as [[] [] [] [] [] [] [] []]; reflexivity. Qed.

Lemma lower_idem (s : string) : Py.lower (Py.lower s) = Py.lower s.
Proof.
  induction s as [|c s IH]; simpl; [reflexivity|].
  rewrite lower_char_idem, IH. reflexivity.
Qed.

Lemma lower_empty (s : string) : (Py.lower s =? "")%string = (s =? "")%string.
Proof. destruct s; reflexivity. Qed.

Lemma lstrip_lower (s : string) : Py.lstrip (Py.lower s) = Py.lower (Py.lstrip s).
Proof.
  induction s as [|c s IH]; simpl; [reflexivity|].
  rewrite isspace_lower_char. destruct (Py.isspace c); [exact IH | reflexivity].
Qed.

Lemma rstrip_lower (s : string) : Py.rstrip (Py.lower s) = Py.lower (Py.rstrip s).
Proof.
  induction s as [|c s IH]; simpl; [reflexivity|].
  rewrite isspace_lower_char, IH, lower_empty.
  destruct (Py.isspace c && (Py.rstrip s =? "")%string); reflexivity.
Qed.

Lemma strip_lower (s : string) : Py.strip (Py.lower s) = Py.lower (Py.strip s).
Proof. unfold Py.strip. rewrite rstrip_lower, lstrip_lower. reflexivity. Qed.

(** X16: the catalog search does not look at the case of the search text:
    two texts with the same lowercase form give the same result. *)
Theorem search_ignores_case (st : store) (q1 q2 : string)
    (typ availability : option string) :
  Py.lower q1 = Py.lower q2 ->
  organ_listings st (Some q1) typ availability
  = organ_listings st (Some q2) typ availability.
Proof.
  intros H. unfold organ_listings, Py.get.
  rewrite <- (lower_idem (Py.strip q1)), <- (lower_idem (Py.strip q2)).
  rewrite <- !strip_lower, H. reflexivity.
Qed.

Lemma search_ignores_case_witness :
  organ_listings catalog_sample (Some "KIDney") None None
  = organ_listings catalog_sample (Some "kidNEY") None None.
Proof.
  apply (search_ignores_case catalog_sample "KIDney" "kidNEY" None None).
  reflexivity.
Defined.



Lemma catalog_where_unfiltered (l : listing) : catalog_where "" "All" "All" l = true.
Proof. reflexivity. Qed.

(** X18: /api/organs returns every stored listing, newest first, and they
    are the listings the catalog shows when it is given no filter. *)
Theorem api_organs_lists_everything (st : store) :
  Permutation (api_organs st) (tbl_organ_listings st)
  /\ StronglySorted
       (fun a b => String.leb (l_created_at b) (l_created_at a) = true)
       (api_organs st)
  /\ Permutation (api_organs st) (organ_listings st None None None).
Proof.
  split; [apply order_by_perm|]. split.
  - unfold api_organs. apply (order_by_sorted newest_first).
    + intros a b. apply String.leb_total.
    + intros a b c H1 H2. unfold newest_first in *.
      eapply string_leb_trans; eassumption.
  - etransitivity; [apply order_by_perm|]. symmetry.
    unfold organ_listings. etransitivity; [apply order_by_perm|].
    change (Py.lower (Py.strip (Py.get None ""))) with "".
    change (Py.get None "All") with "All".
    rewrite forallb_filter_id; [apply Permutation_refl|].
    apply forallb_forall. intros l _. apply catalog_where_unfiltered.
Qed.

(** ** Choosing a port *)

Lemma scan_window (can_bind : Z -> bool) (b : Z) (n s : nat) :
  (forall k, (s <= k < s + n)%nat -> 0 <= b + Z.of_nat k <= 65535) ->
  match scan_ports can_bind (map (fun i => b + Z.of_nat i) (seq s n)) with
  | Some (Port p) =>
      exists k, (s <= k < s + n)%nat /\ p = b + Z.of_nat k
                /\ can_bind p = true
                /\ forall k', (s <= k' < k)%nat -> can_bind (b + Z.of_nat k') = false
  | Some (Raised _) => False
  | None => forall k, (s <= k < s + n)%nat -> can_bind (b + Z.of_nat k) = false
  end.
Proof.
  revert s. induction n as [|n IH]; intros s Hrange; simpl.
  - intros k Hk. lia.
  - assert (Hs : 0 <= b + Z.of_nat s <= 65535) by (apply Hrange; lia).
    destruct (b + Z.of_nat s <? 0) eqn:E1; [apply Z.ltb_lt in E1; lia|].
    destruct (65535 <? b + Z.of_nat s) eqn:E2; [apply Z.ltb_lt in E2; lia|].
    simpl. destruct (can_bind (b + Z.of_nat s)) eqn:Hb.
    + exists s. split; [lia|]. split; [reflexivity|]. split; [exact Hb|].
      intros k' Hk'. lia.
    + specialize (IH (S s)).
      destruct (scan_ports can_bind (map (fun i => b + Z.of_nat i) (seq (S s) n)))
        as [[p|e]|].
      * destruct IH as [k [Hk [Hp [Hc Hleast]]]]; [intros; apply Hrange; lia|].
        exists k. split; [lia|]. split; [exact Hp|]. split; [exact Hc|].
        intros k' Hk'. destruct (Nat.eq_dec k' s) as [->|Hne]; [exact Hb|].
        apply Hleast. lia.
      * apply IH. intros; apply Hrange; lia.
      * intros k Hk. destruct (Nat.eq_dec k s) as [->|Hne]; [exact Hb|].
        apply IH; [intros; apply Hrange; lia | lia].
Qed.

(** X19: for a preferred port between 0 and 65516, the function returns the
    lowest port of preferred .. preferred+19 that can be bound; when none of
    them can, it returns the port the system assigns, and raises OSError
    when that bind fails too. *)
Theorem find_free_port_takes_lowest (can_bind : Z -> bool) (os_port : option Z)
    (preferred : Z) :
  0 <= preferred <= 65516 ->
  match _find_free_port can_bind os_port preferred with
  | Port p =>
      (preferred <= p < preferred + 20 /\ can_bind p = true
       /\ forall p', preferred <= p' < p -> can_bind p' = false)
      \/ (os_port = Some p
          /\ forall p', preferred <= p' < preferred + 20 -> can_bind p' = false)
  | Raised e =>
      e = "OSError" /\ os_port = None
      /\ forall p', preferred <= p' < preferred + 20 -> can_bind p' = false
  end.
Proof.
  intros Hpref. unfold _find_free_port, try_ports.
  pose proof (scan_window can_bind preferred 20 0) as H.
  assert (Hnone : (forall k, (0 <= k < 0 + 20)%nat ->
                             can_bind (preferred + Z.of_nat k) = false) ->
                  forall p', preferred <= p' < preferred + 20 -> can_bind p' = false).
  { intros Hk p' Hp'.
    replace p' with (preferred + Z.of_nat (Z.to_nat (p' - preferred))) by lia.
    apply Hk. lia. }
  destruct (scan_ports can_bind (map (fun i => preferred + Z.of_nat i) (seq 0 20)))
    as [[p|e]|].
  - left. destruct H as [k [Hk [-> [Hc Hleast]]]]; [intros; lia|].
    split; [lia|]. split; [exact Hc|].
    intros p' Hp'.
    replace p' with (preferred + Z.of_nat (Z.to_nat (p' - preferred))) by lia.
    apply Hleast. lia.
  - exfalso. apply H. intros; lia.
  - assert (Hall := Hnone (H ltac:(intros; lia))).
    destruct os_port as [p|]; [right; auto | auto].
Qed.

Lemma find_free_port_takes_lowest_witness :
  exists p, _find_free_port (fun p => 5002 <=? p) None 5000 = Port p
            /\ 5000 <= p < 5020 /\ (5002 <=? p) = true.
Proof.
  pose proof (find_free_port_takes_lowest (fun p => 5002 <=? p) None 5000
                ltac:(lia)) as H.
  assert (E : _find_free_port (fun p => 5002 <=? p) None 5000 = Port 5002)
    by reflexivity.
  rewrite E in H. destruct H as [[Hr [Hc _]]|[Hos _]]; [|discriminate Hos].
  exists 5002. split; [exact E|]. split; [exact Hr | exact Hc].
Defined.

Lemma scan_overflow (can_bind : Z -> bool) (b : Z) (m n s : nat) :
  (s <= m < s + n)%nat ->
  (forall k, (s <= k < m)%nat ->
             0 <= b + Z.of_nat k <= 65535 /\ can_bind (b + Z.of_nat k) = false) ->
  65535 < b + Z.of_nat m ->
  scan_ports can_bind (map (fun i => b + Z.of_nat i) (seq s n))
  = Some (Raised "OverflowError").
Proof.
  revert s. induction n as [|n IH]; intros s Hm Hbusy Hover; [lia|]. simpl.
  destruct (Nat.eq_dec s m) as [->|Hne].
  - apply Z.ltb_lt in Hover. rewrite Hover, orb_true_r. reflexivity.
  - destruct (Hbusy s ltac:(lia)) as [Hr Hb].
    destruct (b + Z.of_nat s <? 0) eqn:E1; [apply Z.ltb_lt in E1; lia|].
    destruct (65535 <? b + Z.of_nat s) eqn:E2; [apply Z.ltb_lt in E2; lia|].
    simpl. rewrite Hb. apply IH; [lia | intros; apply Hbusy; lia | exact Hover].
Qed.

(** X20: outside that range the fallback is not reached.  A preferred port
    below 0 or above 65535 ends in the OverflowError of [bind], which the
    loop does not catch; so does a preferred port between 65517 and 65535
    when every port from it up to 65535 is taken. *)
Theorem find_free_port_overflows (can_bind : Z -> bool) (os_port : option Z)
    (preferred : Z) :
  preferred < 0 \/ 65535 < preferred
  \/ (65516 < preferred
      /\ forall p, preferred <= p <= 65535 -> can_bind p = false) ->
  _find_free_port can_bind os_port preferred = Raised "OverflowError".
Proof.
  intros H. unfold _find_free_port, try_ports.
  destruct (Z_lt_dec preferred 0) as [Hneg|Hpos].
  { simpl. rewrite Z.add_0_r. apply Z.ltb_lt in Hneg. rewrite Hneg. reflexivity. }
  destruct (Z_lt_dec 65535 preferred) as [Hbig|Hsmall].
  { simpl. rewrite Z.add_0_r. apply Z.ltb_lt in Hbig. rewrite Hbig, orb_true_r.
    reflexivity. }
  destruct H as [H|[H|[Htop Hbusy]]]; [lia | lia |].
  rewrite (scan_overflow can_bind preferred (Z.to_nat (65536 - preferred)) 20 0).
  - reflexivity.
  - lia.
  - intros k Hk. split; [lia|]. apply Hbusy. lia.
  - lia.
Qed.

Lemma find_free_port_overflows_witness :
  _find_free_port (fun _ => false) (Some 40000) 65530 = Raised "OverflowError".
Proof.
  apply (find_free_port_overflows (fun _ => false) (Some 40000) 65530).
  right. right. split; [lia | reflexivity].
Defined.

(** ** The driver portal *)

Lemma portal_of_selected (st : store) (dir : directory) (selected_id : option Z)
    (d : driver) :
  pv_selected_driver (driver_portal st dir selected_id) = Some d ->
  pv_current_order (driver_portal st dir selected_id)
  = hd_error (order_by created_desc
                (filter (is_current_of (d_id d)) (joined_requests st)))
  /\ pv_completed_orders (driver_portal st dir selected_id)
     = firstn 20 (order_by updated_desc
                    (filter (is_completed_of (d_id d)) (joined_requests st))).
Proof.
  unfold driver_portal.
  match goal with
  | |- context [match ?x with Some _ => mkPortal _ _ _ _ _ | None => _ end] =>
      destruct x as [d0|]
  end; simpl; [|discriminate].
  intros [= ->]. split; reflexivity.
Qed.

Lemma string_leb_refl (s : string) : String.leb s s = true.
Proof. destruct (String.leb_total s s); assumption. Qed.

Lemma is_current_of_iff (did : Z) (j : joined_request) :
  is_current_of did j = true
  <-> tr_driver_id (fst j) = Some did
      /\ (tr_status (fst j) = "Assigned" \/ tr_status (fst j) = "En-route").
Proof.
  unfold is_current_of. rewrite andb_true_iff, sql_eq_int_iff, is_active_iff.
  reflexivity.
Qed.

(** X21: the portal shows the selected driver a current order exactly when
    that driver has an active order, the condition on which a claim is
    refused; the order shown is a stored request of that driver with status
    Assigned or En-route, and none of the driver's active orders was created
    later. *)
Theorem portal_current_order (st : store) (dir : directory)
    (selected_id : option Z) (d : driver) :
  pv_selected_driver (driver_portal st dir selected_id) = Some d ->
  match pv_current_order (driver_portal st dir selected_id) with
  | Some j =>
      In (fst j) (tbl_transport_requests st)
      /\ tr_driver_id (fst j) = Some (d_id d)
      /\ (tr_status (fst j) = "Assigned" \/ tr_status (fst j) = "En-route")
      /\ driver_has_active_order st (d_id d) = true
      /\ forall j', In j' (joined_requests st) ->
                    is_current_of (d_id d) j' = true ->
                    String.leb (tr_created_at (fst j')) (tr_created_at (fst j)) = true
  | None => driver_has_active_order st (d_id d) = false
  end.
Proof.
  intros Hsel. destruct (portal_of_selected st dir selected_id d Hsel) as [-> _].
  pose proof (order_by_sorted created_desc) as Hsorted.
  specialize (Hsorted (fun a b => String.leb_total _ _)
                (fun a b c H1 H2 => string_leb_trans _ _ _ H2 H1)
                (filter (is_current_of (d_id d)) (joined_requests st))).
  destruct (order_by created_desc
              (filter (is_current_of (d_id d)) (joined_requests st)))
    as [|j rest] eqn:E; simpl.
  - destruct (driver_has_active_order st (d_id d)) eqn:Hact; [|reflexivity].
    apply driver_has_active_order_iff in Hact as [r [Hr [Hd Hs]]].
    destruct (joined_requests_cover st r Hr) as [j [Hj Hf]].
    assert (Hin : In j (order_by created_desc
                          (filter (is_current_of (d_id d)) (joined_requests st)))).
    { apply in_order_by, filter_In. split; [exact Hj|].
      apply is_current_of_iff. rewrite Hf. auto. }
    rewrite E in Hin. contradiction.
  - assert (Hin : In j (filter (is_current_of (d_id d)) (joined_requests st))).
    { apply (in_order_by created_desc). rewrite E. left. reflexivity. }
    apply filter_In in Hin as [Hj Hc]. apply is_current_of_iff in Hc as [Hd Hs].
    split; [apply in_joined_requests, Hj|]. split; [exact Hd|]. split; [exact Hs|].
    split.
    + apply driver_has_active_order_iff. exists (fst j).
      split; [apply in_joined_requests, Hj | auto].
    + intros j' Hj' Hc'.
      assert (Hin' : In j' (j :: rest)).
      { rewrite <- E. apply in_order_by, filter_In. auto. }
      inversion Hsorted as [|? ? _ Hall]; subst.
      destruct Hin' as [<-|Hin']; [apply string_leb_refl|].
      rewrite Forall_forall in Hall. apply (Hall j' Hin').
Qed.

Lemma portal_current_order_witness :
  pv_current_order (driver_portal catalog_sample sample_directory (Some 7))
  <> None.
Proof.
  pose proof (portal_current_order catalog_sample sample_directory (Some 7)
                (mkDriver 7 "Dana" "Ruiz" "dana@example.org" "555-0007" "CDL-7")
                eq_refl) as H.
  destruct (pv_current_order (driver_portal catalog_sample sample_directory (Some 7)));
    [discriminate | discriminate H].
Defined.

Lemma in_firstn {A : Type} (n : nat) (l : list A) (x : A) :
  In x (firstn n l) -> In x l.
Proof.
  revert l. induction n as [|n IH]; intros [|y l]; simpl; try tauto.
  intros [H|H]; [left; exact H | right; apply IH, H].
Qed.

Lemma StronglySorted_firstn {A : Type} (R : A -> A -> Prop) (n : nat) (l : list A) :
  StronglySorted R l -> StronglySorted R (firstn n l).
Proof.
  revert l. induction n as [|n IH]; intros l H; [constructor|].
  destruct H as [|x l Hs Hall]; simpl; constructor.
  - apply IH, Hs.
  - apply Forall_forall. intros y Hy. apply in_firstn in Hy.
    rewrite Forall_forall in Hall. apply Hall, Hy.
Qed.

(** X22: the completed orders shown to the selected driver are at most 20,
    each a stored request with that driver's id and status Delivered, in
    descending order of updated_at. *)
Theorem portal_completed_orders (st : store) (dir : directory)
    (selected_id : option Z) (d : driver) :
  pv_selected_driver (driver_portal st dir selected_id) = Some d ->
  (List.length (pv_completed_orders (driver_portal st dir selected_id)) <= 20)%nat
  /\ Forall (fun j => In (fst j) (tbl_transport_requests st)
                      /\ tr_driver_id (fst j) = Some (d_id d)
                      /\ tr_status (fst j) = "Delivered")
       (pv_completed_orders (driver_portal st dir selected_id))
  /\ StronglySorted
       (fun a b => String.leb (tr_updated_at (fst b)) (tr_updated_at (fst a)) = true)
       (pv_completed_orders (driver_portal st dir selected_id)).
Proof.
  intros Hsel. destruct (portal_of_selected st dir selected_id d Hsel) as [_ ->].
  split; [apply firstn_le_length|]. split.
  - apply Forall_forall. intros j Hj. apply in_firstn in Hj.
    apply in_order_by, filter_In in Hj as [Hin Hc].
    unfold is_completed_of in Hc. apply andb_true_iff in Hc as [Hd Hs].
    split; [apply in_joined_requests, Hin|].
    split; [apply sql_eq_int_iff, Hd | apply String.eqb_eq, Hs].
  - apply StronglySorted_firstn. apply (order_by_sorted updated_desc).
    + intros a b. apply String.leb_total.
    + intros a b c H1 H2. unfold updated_desc in *.
      eapply string_leb_trans; eassumption.
Qed.

Lemma portal_completed_orders_witness :
  let st := sample_store [sample_order 1 "Delivered" (Some 7);
                          sample_order 2 "Assigned" (Some 7)] in
  Forall (fun j => In (fst j) (tbl_transport_requests st)
                   /\ tr_driver_id (fst j) = Some 7
                   /\ tr_status (fst j) = "Delivered")
    (pv_completed_orders (driver_portal st sample_directory (Some 7))).
Proof.
  intros st.
  destruct (portal_completed_orders st sample_directory (Some 7)
              (mkDriver 7 "Dana" "Ruiz" "dana@example.org" "555-0007" "CDL-7")
              eq_refl) as [_ [H _]].
  exact H.
Defined.

(** ** The hospital pages *)

Lemma hospital_page_of_selected (id_of_text : string -> option Z) (st : store)
    (selected_id : option string) (h : hospital) :
  hv_selected_hospital (for_hospitals id_of_text st selected_id) = Some h ->
  hv_outbound (for_hospitals id_of_text st selected_id)
  = order_by created_desc
      (filter (fun j => (tr_hospital (fst j) =? h_name h)%string) (joined_requests st))
  /\ hv_inbound (for_hospitals id_of_text st selected_id)
     = order_by created_desc (filter (is_inbound_of (h_name h)) (joined_requests st))
  /\ hv_listings (for_hospitals id_of_text st selected_id)
     = order_by newest_first
         (filter (fun l => (l_hospital_name l =? h_name h)%string)
            (tbl_organ_listings st)).
Proof.
  unfold for_hospitals.
  match goal with
  | |- context [match ?x with Some _ => mkHospitalView _ _ _ _ _ | None => _ end] =>
      destruct x as [h0|]
  end; simpl; [|discriminate].
  intros [= ->]. repeat split; reflexivity.
Qed.

Lemma created_desc_sorted (l : list joined_request) :
  StronglySorted
    (fun a b => String.leb (tr_created_at (fst b)) (tr_created_at (fst a)) = true)
    (order_by created_desc l).
Proof.
  apply (order_by_sorted created_desc).
  - intros a b. apply String.leb_total.
  - intros a b c H1 H2. unfold created_desc in *.
    eapply string_leb_trans; eassumption.
Qed.

Lemma is_inbound_of_iff (hname : string) (j : joined_request) :
  is_inbound_of hname j = true
  <-> exists l, snd j = Some l /\ l_hospital_name l = hname.
Proof.
  unfold is_inbound_of. destruct (snd j) as [l|].
  - rewrite String.eqb_eq. split.
    + intros H. exists l. auto.
    + intros [l' [[= <-] H]]. exact H.
  - split; [discriminate | intros [l [H _]]; discriminate].
Qed.

(** X23: for the selected hospital, the outbound view holds exactly the
    joined requests whose hospital is that hospital's name, the inbound view
    exactly those whose listing carries that name, and the listings view
    exactly the listings with that name; the two request views are ordered
    by created_at, newest first. *)
Theorem hospital_page_views (id_of_text : string -> option Z) (st : store)
    (selected_id : option string) (h : hospital) :
  hv_selected_hospital (for_hospitals id_of_text st selected_id) = Some h ->
  (forall j, In j (hv_outbound (for_hospitals id_of_text st selected_id))
             <-> In j (joined_requests st) /\ tr_hospital (fst j) = h_name h)
  /\ (forall j, In j (hv_inbound (for_hospitals id_of_text st selected_id))
                <-> In j (joined_requests st)
                    /\ exists l, snd j = Some l /\ l_hospital_name l = h_name h)
  /\ (forall l, In l (hv_listings (for_hospitals id_of_text st selected_id))
                <-> In l (tbl_organ_listings st) /\ l_hospital_name l = h_name h)
  /\ StronglySorted
       (fun a b => String.leb (tr_created_at (fst b)) (tr_created_at (fst a)) = true)
       (hv_outbound (for_hospitals id_of_text st selected_id))
  /\ StronglySorted
       (fun a b => String.leb (tr_created_at (fst b)) (tr_created_at (fst a)) = true)
       (hv_inbound (for_hospitals id_of_text st selected_id)).
Proof.
  intros Hsel.
  destruct (hospital_page_of_selected id_of_text st selected_id h Hsel)
    as [-> [-> ->]].
  split; [|split; [|split; [|split]]].
  - intros j. rewrite in_order_by, filter_In, String.eqb_eq. reflexivity.
  - intros j. rewrite in_order_by, filter_In, is_inbound_of_iff. reflexivity.
  - intros l. rewrite in_order_by, filter_In, String.eqb_eq. reflexivity.
  - apply created_desc_sorted.
  - apply created_desc_sorted.
Qed.

Lemma hospital_page_views_witness :
  In (mkRequest 2 None "H1" "Heart" "H2" "1 Elm St" "555" ""
        "Urgent" "Requested" None "2025-01-03 09:00:00" "2025-01-03 09:00:00",
      None)
    (hv_outbound (for_hospitals decimal_id catalog_sample (Some "1"))).
Proof.
  destruct (hospital_page_views decimal_id catalog_sample (Some "1")
              (mkHospital 1 "H1" "Dallas" "TX" "h1@example.org") eq_refl)
    as [H _].
  apply H. split; [|reflexivity].
  right. left. reflexivity.
Defined.

Lemma in_left_join_some (ls : list listing) (r : transport_request) (l : listing) :
  In l ls -> sql_eq_int (tr_listing_id r) (l_id l) = true ->
  In (r, Some l) (left_join_listing ls r).
Proof.
  intros Hin Hid. unfold left_join_listing.
  assert (Hf : In l (filter (fun x => sql_eq_int (tr_listing_id r) (l_id x)) ls))
    by (apply filter_In; auto).
  destruct (filter _ ls) as [|x rest]; [contradiction|].
  apply (in_map (fun x => (r, Some x))), Hf.
Qed.

(** X24: an accepted request shows up on the hospital pages: in the
    outbound view of a selected hospital with the requesting hospital's
    name, and in the inbound view of a selected hospital with the name the
    listing carries. *)
Theorem created_request_is_listed (id_of_text : string -> option Z)
    (st st1 : store) (now : timestamp) (listing_id : Z) (d : transport_form)
    (endpoint : string) (order_id : Z) (l : listing)
    (selected_id : option string) (hs : hospital) :
  request_transport id_of_text st now POST listing_id d
  = (st1, Redirect endpoint (Some order_id)) ->
  select_listing st listing_id = Some l ->
  hv_selected_hospital (for_hospitals id_of_text st1 selected_id) = Some hs ->
  exists row,
    select_order st1 order_id = Some row
    /\ (tr_hospital row = h_name hs ->
        exists j, In j (hv_outbound (for_hospitals id_of_text st1 selected_id))
                  /\ fst j = row)
    /\ (l_hospital_name l = h_name hs ->
        exists j, In j (hv_inbound (for_hospitals id_of_text st1 selected_id))
                  /\ fst j = row).
Proof.
  intros H Hl Hsel.
  destruct (hospital_page_of_selected id_of_text st1 selected_id hs Hsel)
    as [-> [-> _]].
  destruct (request_transport_outcome id_of_text st now POST listing_id d)
    as [[_ Hno]|[l0 [h [_ [Hl0 [_ [_ Hok]]]]]]].
  { rewrite H in Hno. exfalso. apply (Hno endpoint (Some order_id)). reflexivity. }
  rewrite Hl in Hl0. injection Hl0 as <-.
  rewrite Hok in H. injection H as <- _ <-.
  match goal with
  | |- context [tbl_transport_requests st ++ [?r]] => set (row := r)
  end.
  exists row.
  assert (Hrow : In row (tbl_transport_requests
                           (mkStore (tbl_hospitals st)
                              (update_where (fun x => l_id x =? l_id l)
                                 mark_unavailable (tbl_organ_listings st))
                              (tbl_transport_requests st ++ [row])))).
  { cbn [tbl_transport_requests]. apply in_or_app. right. left. reflexivity. }
  split; [|split].
  - unfold select_order. cbn [tbl_transport_requests].
    apply find_app_fresh; [apply select_order_fresh | apply Z.eqb_refl].
  - intros Hname. destruct (joined_requests_cover _ _ Hrow) as [j [Hj Hf]].
    exists j. split; [|exact Hf].
    apply in_order_by, filter_In. split; [exact Hj|].
    apply String.eqb_eq. rewrite Hf. exact Hname.
  - intros Hname. exists (row, Some (mark_unavailable l)). split; [|reflexivity].
    apply in_order_by, filter_In. split.
    + unfold joined_requests. apply in_flat_map. exists row. split; [exact Hrow|].
      apply in_left_join_some.
      * cbn [tbl_organ_listings]. unfold update_where. apply in_map_iff.
        exists l. unfold select_listing in Hl. apply find_some in Hl as [Hin _].
        rewrite Z.eqb_refl. split; [reflexivity | exact Hin].
      * simpl. apply Z.eqb_refl.
    + apply is_inbound_of_iff. exists (mark_unavailable l). split; [reflexivity|].
      exact Hname.
Qed.

Lemma created_request_is_listed_witness :
  let st1 := fst (request_transport decimal_id (sample_store []) t1 POST 1
                    (sample_form "2" "123 Main St")) in
  exists j, In j (hv_outbound (for_hospitals decimal_id st1 (Some "2")))
            /\ tr_id (fst j) = 1.
Proof.
  intros st1.
  destruct (created_request_is_listed decimal_id (sample_store []) st1 t1 1
              (sample_form "2" "123 Main St") "order_confirmation" 1
              sample_listing (Some "2")
              (mkHospital 2 "H2" "Austin" "TX" "h2@example.org")
              eq_refl eq_refl eq_refl)
    as [row [Hrow [Hout _]]].
  injection Hrow as <-.
  destruct (Hout eq_refl) as [j [Hj Hf]].
  exists j. split; [exact Hj | rewrite Hf; reflexivity].
Defined.

(** ** The confirmation page *)








(** ** Registering drivers, hospitals and listings *)

Lemma find_fresh_id {A : Type} (key : A -> Z) (rows : list A) :
  find (fun x => key x =? next_rowid (map key rows)) rows = None.
Proof.
  destruct (find _ rows) as [r|] eqn:E; [|reflexivity].
  apply find_some in E as [Hin Hid]. apply Z.eqb_eq in Hid.
  exfalso. apply (next_rowid_fresh (map key rows)).
  rewrite <- Hid. apply in_map, Hin.
Qed.

(** X26: an application either is refused with HTTP 400, some field missing
    and nothing stored, or stores one application and one driver with the
    same five fields; the new driver is then listed on the portal, and
    selected there when asked for by a non-zero id. *)
Theorem apply_driver_adds_both (dir : directory) (d : driver_form) :
  (fst (apply_driver dir d) = dir
   /\ snd (apply_driver dir d) = Abort 400 "Bad Request"
   /\ (df_first_name d = None \/ df_last_name d = None \/ df_email d = None
       \/ df_phone d = None \/ df_cdl d = None))
  \/ exists first_name last_name email phone cdl,
       let new_driver :=
         mkDriver (next_rowid (map d_id (tbl_drivers dir)))
           first_name last_name email phone cdl in
       df_first_name d = Some first_name /\ df_last_name d = Some last_name
       /\ df_email d = Some email /\ df_phone d = Some phone
       /\ df_cdl d = Some cdl
       /\ snd (apply_driver dir d) = Redirect "driver_portal" None
       /\ tbl_driver_applications (fst (apply_driver dir d))
          = tbl_driver_applications dir
            ++ [mkApplication (next_rowid (map a_id (tbl_driver_applications dir)))
                  first_name last_name email phone cdl]
       /\ tbl_drivers (fst (apply_driver dir d)) = tbl_drivers dir ++ [new_driver]
       /\ forall st,
            (forall selected_id,
                In new_driver
                  (pv_drivers (driver_portal st (fst (apply_driver dir d)) selected_id)))
            /\ (d_id new_driver <> 0 ->
                pv_selected_driver
                  (driver_portal st (fst (apply_driver dir d))
                     (Some (d_id new_driver)))
                = Some new_driver).
Proof.
  unfold apply_driver.
  destruct (df_first_name d) as [fn|]; [|left; auto].
  destruct (df_last_name d) as [ln|]; [|left; auto 6].
  destruct (df_email d) as [em|]; [|left; auto 7].
  destruct (df_phone d) as [ph|]; [|left; auto 8].
  destruct (df_cdl d) as [cdl|]; [|left; auto 9].
  right. exists fn, ln, em, ph, cdl. cbn zeta. cbn [fst snd tbl_drivers tbl_driver_applications].
  repeat (split; [reflexivity|]).
  intros st.
  set (nd := mkDriver (next_rowid (map d_id (tbl_drivers dir))) fn ln em ph cdl).
  assert (Hin : In nd (order_by driver_name_leb (tbl_drivers dir ++ [nd]))).
  { apply in_order_by, in_or_app. right. left. reflexivity. }
  split.
  - intros selected_id. unfold driver_portal. cbn [tbl_drivers].
    destruct (order_by driver_name_leb (tbl_drivers dir ++ [nd])) as [|first rest] eqn:E;
      [destruct Hin|].
    match goal with
    | |- context [match ?x with Some _ => mkPortal _ _ _ _ _ | None => _ end] =>
        destruct x
    end; cbn [pv_drivers]; exact Hin.
  - intros Hnz. unfold driver_portal. cbn [tbl_drivers].
    destruct (order_by driver_name_leb (tbl_drivers dir ++ [nd])) as [|first rest] eqn:E;
      [destruct Hin|].
    unfold Py.truthy_int. apply Z.eqb_neq in Hnz.
    change (d_id nd) with (next_rowid (map d_id (tbl_drivers dir))) in *.
    cbv beta iota. rewrite Hnz. cbn [negb].
    rewrite (find_app_fresh _ _ nd (find_fresh_id d_id (tbl_drivers dir)) (Z.eqb_refl _)).
    reflexivity.
Qed.

Lemma hospital_registration_outcome (st : store) (meth : http_method)
    (d : hospital_form) :
  (fst (hospital_registration st meth d) = st
   /\ forall e a, snd (hospital_registration st meth d) <> Redirect e a)
  \/ exists name city state email,
       hf_name d = Some name /\ hf_city d = Some city
       /\ hf_state d = Some state /\ hf_email d = Some email
       /\ hospital_registration st meth d
          = (set_hospitals st
               (tbl_hospitals st
                ++ [mkHospital (next_rowid (map h_id (tbl_hospitals st)))
                      name city state email]),
             Redirect "for_hospitals" None).
Proof.
  unfold hospital_registration.
  destruct meth; [left; split; [reflexivity | discriminate]|].
  destruct (hf_name d) as [name|]; [|left; split; [reflexivity | discriminate]].
  destruct (hf_city d) as [city|]; [|left; split; [reflexivity | discriminate]].
  destruct (hf_state d) as [state|]; [|left; split; [reflexivity | discriminate]].
  destruct (hf_email d) as [email|]; [|left; split; [reflexivity | discriminate]].
  right. exists name, city, state, email. repeat split.
Qed.

(** X27: an accepted registration adds one hospital with the four fields of
    the form and leaves listings and requests alone; a hospital_id text that
    reads as the new id then selects this hospital, and is the selected
    hospital of the hospital page. *)
Theorem registered_hospital_is_selectable (id_of_text : string -> option Z)
    (st st1 : store) (d : hospital_form) (endpoint : string) (arg : option Z) :
  hospital_registration st POST d = (st1, Redirect endpoint arg) ->
  exists h,
    tbl_hospitals st1 = tbl_hospitals st ++ [h]
    /\ hf_name d = Some (h_name h) /\ hf_city d = Some (h_city h)
    /\ hf_state d = Some (h_state h) /\ hf_email d = Some (h_email h)
    /\ tbl_organ_listings st1 = tbl_organ_listings st
    /\ tbl_transport_requests st1 = tbl_transport_requests st
    /\ forall text, id_of_text text = Some (h_id h) ->
         select_hospital id_of_text st1 text = Some h
         /\ (text <> "" ->
             hv_selected_hospital (for_hospitals id_of_text st1 (Some text))
             = Some h).
Proof.
  intros H.
  destruct (hospital_registration_outcome st POST d)
    as [[_ Hno]|[name [city [state [email [Hn [Hc [Hs [He Hok]]]]]]]]].
  { rewrite H in Hno. exfalso. apply (Hno endpoint arg). reflexivity. }
  rewrite Hok in H. injection H as <- _ _.
  eexists. split; [reflexivity|]. cbn [h_name h_city h_state h_email h_id].
  repeat (split; [assumption || reflexivity|]).
  intros text Htext.
  assert (Hsel : select_hospital id_of_text
                   (set_hospitals st
                      (tbl_hospitals st
                       ++ [mkHospital (next_rowid (map h_id (tbl_hospitals st)))
                             name city state email])) text
                 = Some (mkHospital (next_rowid (map h_id (tbl_hospitals st)))
                           name city state email)).
  { unfold select_hospital. rewrite Htext. cbn [set_hospitals tbl_hospitals].
    apply find_app_fresh; [apply find_fresh_id | apply Z.eqb_refl]. }
  split; [exact Hsel|].
  intros Hne. unfold for_hospitals.
  destruct (order_by hospital_name_leb _) as [|first rest] eqn:E.
  - exfalso.
    assert (Hin : In (mkHospital (next_rowid (map h_id (tbl_hospitals st)))
                        name city state email)
                    (order_by hospital_name_leb
                       (tbl_hospitals
                          (set_hospitals st
                             (tbl_hospitals st
                              ++ [mkHospital (next_rowid (map h_id (tbl_hospitals st)))
                                    name city state email]))))).
    { apply in_order_by. cbn [set_hospitals tbl_hospitals].
      apply in_or_app. right. left. reflexivity. }
    rewrite E in Hin. contradiction.
  - unfold Py.truthy_str, Py.get. apply String.eqb_neq in Hne. rewrite Hne.
    cbn [negb]. rewrite Hsel. reflexivity.
Qed.

Lemma registered_hospital_is_selectable_witness :
  let d := mkHospitalForm (Some "H3") (Some "Waco") (Some "TX") (Some "h3@example.org") in
  select_hospital decimal_id (fst (hospital_registration (sample_store []) POST d)) "3"
  = Some (mkHospital 3 "H3" "Waco" "TX" "h3@example.org").
Proof.
  intros d.
  destruct (registered_hospital_is_selectable decimal_id (sample_store [])
              (fst (hospital_registration (sample_store []) POST d)) d
              "for_hospitals" None eq_refl)
    as [h [Hh [_ [_ [_ [_ [_ [_ Hsel]]]]]]]].
  apply (f_equal (fun l => nth 2 l (mkHospital 0 "" "" "" ""))) in Hh.
  cbn in Hh. subst h.
  destruct (Hsel "3" eq_refl) as [H _]. exact H.
Defined.

Lemma new_listing_outcome (id_of_text : string -> option Z)
    (int_ok float_ok : string -> bool) (st : store) (now : timestamp)
    (meth : http_method) (d : listing_form) :
  (fst (new_listing id_of_text int_ok float_ok st now meth d) = st
   /\ forall e a, snd (new_listing id_of_text int_ok float_ok st now meth d)
                  <> Redirect e a)
  \/ exists hrow organ_type blood_type,
       select_hospital id_of_text st (Py.get (lf_hospital_id d) "") = Some hrow
       /\ lf_organ_type d = Some organ_type
       /\ lf_blood_type d = Some blood_type
       /\ new_listing id_of_text int_ok float_ok st now meth d
          = (set_listings st
               (tbl_organ_listings st
                ++ [mkListing (next_rowid (map l_id (tbl_organ_listings st)))
                      (h_id hrow) (h_name hrow) organ_type blood_type
                      (Py.get (lf_priority_status d) "Normal")
                      (Py.get (lf_availability_status d) "Available")
                      (h_city hrow) (h_state hrow) now]),
             Redirect "for_hospitals" (Some (h_id hrow))).
Proof.
  unfold new_listing.
  destruct meth; [left; split; [reflexivity | discriminate]|].
  destruct (negb (Py.truthy_str (lf_hospital_id d)));
    [left; split; [reflexivity | discriminate]|].
  destruct (select_hospital id_of_text st (Py.get (lf_hospital_id d) "")) as [hrow|];
    [|left; split; [reflexivity | discriminate]].
  destruct (lf_organ_type d) as [organ_type|];
    [|left; split; [reflexivity | discriminate]].
  destruct (lf_blood_type d) as [blood_type|];
    [|left; split; [reflexivity | discriminate]].
  destruct (lf_age d) as [age|]; [|left; split; [reflexivity | discriminate]].
  destruct (negb (int_ok age)); [left; split; [reflexivity | discriminate]|].
  destruct (lf_weight_kg d) as [weight_kg|];
    [|left; split; [reflexivity | discriminate]].
  destruct (negb (float_ok weight_kg)); [left; split; [reflexivity | discriminate]|].
  right. exists hrow, organ_type, blood_type. repeat split.
Qed.

(** X28: an accepted new listing is stored under an id not in use before,
    with the hospital_id, hospital_name, city and state of the hospital row
    the form names (not of the form), with priority_status "Normal" and
    availability_status "Available" when the form leaves them out; it is
    found by its id, and hospitals and requests are left alone. *)
Theorem new_listing_takes_hospital_data (id_of_text : string -> option Z)
    (int_ok float_ok : string -> bool) (st st1 : store) (now : timestamp)
    (d : listing_form) (endpoint : string) (arg : option Z) :
  new_listing id_of_text int_ok float_ok st now POST d
  = (st1, Redirect endpoint arg) ->
  exists hrow l,
    select_hospital id_of_text st (Py.get (lf_hospital_id d) "") = Some hrow
    /\ arg = Some (h_id hrow)
    /\ tbl_organ_listings st1 = tbl_organ_listings st ++ [l]
    /\ l_hospital_id l = h_id hrow /\ l_hospital_name l = h_name hrow
    /\ l_city l = h_city hrow /\ l_state l = h_state hrow
    /\ l_priority_status l = Py.get (lf_priority_status d) "Normal"
    /\ l_availability_status l = Py.get (lf_availability_status d) "Available"
    /\ l_created_at l = now
    /\ select_listing st (l_id l) = None
    /\ select_listing st1 (l_id l) = Some l
    /\ tbl_hospitals st1 = tbl_hospitals st
    /\ tbl_transport_requests st1 = tbl_transport_requests st.
Proof.
  intros H.
  destruct (new_listing_outcome id_of_text int_ok float_ok st now POST d)
    as [[_ Hno]|[hrow [organ_type [blood_type [Hh [_ [_ Hok]]]]]]].
  { rewrite H in Hno. exfalso. apply (Hno endpoint arg). reflexivity. }
  rewrite Hok in H. injection H as <- _ <-.
  exists hrow. eexists. split; [exact Hh|]. split; [reflexivity|].
  split; [reflexivity|].
  cbn [l_hospital_id l_hospital_name l_city l_state l_priority_status
       l_availability_status l_created_at l_id].
  repeat (split; [reflexivity|]).
  split; [apply (find_fresh_id l_id)|].
  split; [|split; reflexivity].
  unfold select_listing. cbn [set_listings tbl_organ_listings].
  apply find_app_fresh; [apply (find_fresh_id l_id) | apply Z.eqb_refl].
Qed.

Lemma new_listing_takes_hospital_data_witness :
  let d := mkListingForm (Some "2") (Some "Liver") (Some "A+") (Some "41")
             (Some "1.4") None None in
  exists l,
    select_listing
      (fst (new_listing decimal_id (fun _ => true) (fun _ => true)
              (sample_store []) t1 POST d)) 2 = Some l
    /\ l_hospital_name l = "H2" /\ l_availability_status l = "Available".
Proof.
  intros d.
  destruct (new_listing_takes_hospital_data decimal_id (fun _ => true)
              (fun _ => true) (sample_store [])
              (fst (new_listing decimal_id (fun _ => true) (fun _ => true)
                      (sample_store []) t1 POST d))
              t1 d "for_hospitals" (Some 2) eq_refl)
    as [hrow [l [Hh [_ [Hl [_ [Hname [_ [_ [_ [Hav [_ [_ [Hsel _]]]]]]]]]]]]]].
  injection Hh as <-.
  apply (f_equal (fun ls => map l_id ls)) in Hl. cbn in Hl.
  injection Hl as Hid. rewrite <- Hid in Hsel.
  exists l. split; [exact Hsel|]. split; [exact Hname | exact Hav].
Defined.



